(** * raiden_mps.contract_proxy: a shallow embedding and its properties

    The module under study (contract_proxy.py) is a thin client-side proxy
    around one payment-channel contract.  It builds signed transactions,
    queries event logs, and turns log polling into a blocking wait with a
    timeout.

    The Python code talks to collaborators that live outside the module
    (web3, pyethereum, rlp, gevent).  Those are interfaces here (type
    classes); everything the module itself does is a definition below,
    written in an error-and-state monad over a world made of the remote
    node's state and a chronological trace of the effects performed. *)

From Stdlib Require Import ZArith List Bool Lia.
From stdpp Require Import base gmap strings list fin_maps.

Local Open Scope Z_scope.

(* ===================================================================== *)
(** ** Python values, exceptions *)
(* ===================================================================== *)

(** The scalar Python values the module inspects or compares. *)
Inductive pyval :=
| PNone
| PBool (b : bool)
| PInt (n : Z)
| PStr (s : string).

(** Python's [==] on those values; [True == 1] and [False == 0] hold
    because [bool] is a subclass of [int]. *)
Definition py_eq (a b : pyval) : bool :=
  match a, b with
  | PNone, PNone => true
  | PBool x, PBool y => Bool.eqb x y
  | PInt x, PInt y => x =? y
  | PBool x, PInt y | PInt y, PBool x => y =? (if x then 1 else 0)
  | PStr x, PStr y => String.eqb x y
  | _, _ => false
  end.

(** Truth value of a Python scalar. *)
Definition py_truthy (v : pyval) : bool :=
  match v with
  | PNone => false
  | PBool b => b
  | PInt n => negb (n =? 0)
  | PStr s => negb (String.eqb s "")
  end.

Inductive exn :=
| IndexError
| KeyError (key : string)
| TypeError
| ValueError
| AssertionError
| BadFunctionCallOutput
| ExternalError (what : string).

Inductive result (A : Type) :=
| Ok (a : A)
| Raise (e : exn).
Arguments Ok {A} a.
Arguments Raise {A} e.

Definition bindR {A B} (r : result A) (k : A -> result B) : result B :=
  match r with
  | Ok a => k a
  | Raise e => Raise e
  end.

Notation "'let?' x ':=' r 'in' k" := (bindR r (fun x => k))
  (at level 10, x name, r at level 100, k at level 200).

(** [d[key]] on a dict. *)
Definition getitem {V} (d : gmap string V) (key : string) : result V :=
  match d !! key with
  | Some v => Ok v
  | None => Raise (KeyError key)
  end.

(** [l[n]] on a list or tuple, for a non-negative literal index. *)
Definition subscript {A} (l : list A) (n : nat) : result A :=
  match nth_error l n with
  | Some a => Ok a
  | None => Raise IndexError
  end.

(** [[x for x in l if p(x)]], where [p] may raise: the elements are
    visited in order and the first exception aborts the comprehension. *)
Fixpoint comprehension {A} (p : A -> result bool) (l : list A) : result (list A) :=
  match l with
  | [] => Ok []
  | x :: rest =>
      let? keep := p x in
      let? kept := comprehension p rest in
      Ok (if keep then x :: kept else kept)
  end.

(** [for x in l: f(x)] collecting the results, aborting at the first
    exception. *)
Fixpoint for_each {A B} (f : A -> result B) (l : list A) : result (list B) :=
  match l with
  | [] => Ok []
  | x :: rest =>
      let? y := f x in
      let? ys := for_each f rest in
      Ok (y :: ys)
  end.

(** CPython's length of [range(start, stop, step)] for a non-zero step. *)
Definition range_length (start stop step : Z) : Z :=
  if 0 <? step then
    if start <? stop then (stop - start - 1) / step + 1 else 0
  else
    if stop <? start then (start - stop - 1) / (- step) + 1 else 0.

(** [range(start, stop, step)] on integers; a zero step is a ValueError. *)
Definition py_range (start stop step : Z) : result (list Z) :=
  if step =? 0 then Raise ValueError
  else Ok (map (fun k : nat => start + Z.of_nat k * step)
               (seq 0 (Z.to_nat (range_length start stop step)))).

(* ===================================================================== *)
(** ** Data model *)
(* ===================================================================== *)

(** One entry of the contract ABI: a dict with string keys. *)
Abbreviation abi_entry := (gmap string pyval).

(** A log entry is a dict whose values are scalars, except for the
    [args] key, which holds the dict of decoded event arguments. *)
Inductive logval :=
| LScalar (v : pyval)
| LDict (d : gmap string pyval).

Abbreviation log_entry := (gmap string logval).

(** [event['args'][key]]. *)
Definition event_arg (event : log_entry) (key : string) : result pyval :=
  let? a := getitem event "args" in
  match a with
  | LDict d => getitem d key
  | LScalar _ => Raise TypeError
  end.

(** The keyword arguments [get_logs] hands to the filter constructor. *)
Record filter_kwargs := {
  fromBlock : pyval;
  toBlock : pyval;
  kw_address : string
}.

(** [ethereum.transactions.Transaction]: the six positional fields of the
    constructor and the signature, zero until signed. *)
Record Transaction := {
  tx_nonce : Z;
  tx_gasprice : Z;
  tx_startgas : Z;
  tx_to : string;
  tx_value : Z;
  tx_data : string;
  tx_v : Z;
  tx_r : Z;
  tx_s : Z
}.

(** [Transaction(nonce, gasprice, startgas, to, value, data)]. *)
Definition Transaction_new (nonce gasprice startgas : Z) (to : string)
    (value : Z) (data : string) : Transaction :=
  {| tx_nonce := nonce; tx_gasprice := gasprice; tx_startgas := startgas;
     tx_to := to; tx_value := value; tx_data := data;
     tx_v := 0; tx_r := 0; tx_s := 0 |}.

(** The proxy object: what [ContractProxy.__init__] stores. *)
Record ContractProxy := {
  privkey : string;
  caller_address : string;
  address : string;
  abi : list abi_entry;
  gas_price : Z;
  gas_limit : Z
}.

Definition DEFAULT_TIMEOUT : Z := 20.
Definition DEFAULT_RETRY_INTERVAL : Z := 3.

(* ===================================================================== *)
(** ** Collaborators *)
(* ===================================================================== *)

(** The remote node as seen through web3 and the gevent scheduler.  Every
    request may change the node's state and may fail; sleeping lets the
    node's state advance. *)
Class ChainTransport (node response rpc_params : Type) := {
  getTransactionCount : string -> node -> result Z * node;
  request_blocking : string -> list rpc_params -> node -> result response * node;
  call_getChannelInfo : string -> pyval -> pyval -> pyval -> node -> result (list pyval) * node;
  gevent_sleep : Z -> node -> node
}.

(** web3's ABI helpers: all pure, all may raise. *)
Class AbiCodec (response rpc_params filter_spec : Type) := {
  prepare_transaction : list abi_entry -> string -> string -> list pyval -> result (gmap string pyval);
  decode_hex : pyval -> result string;
  construct_event_filter_params :
    abi_entry -> gmap string pyval -> filter_kwargs -> result (list pyval * filter_spec);
  input_filter_params_formatter : filter_spec -> result rpc_params;
  log_array_formatter : response -> result (list log_entry);
  get_event_data : abi_entry -> log_entry -> result log_entry
}.

(** Key handling, signing and the wire encoding. *)
Class Signer := {
  privtoaddr : string -> string;
  encode_hex : string -> string;
  ecsign : Transaction -> string -> result (Z * Z * Z);
  rlp_encode : Transaction -> string;
  toHex : string -> string
}.

(** [tx.sign(key)]: fills in the signature and leaves the other fields. *)
Definition Transaction_sign `{Signer} (tx : Transaction) (key : string) : result Transaction :=
  let? sig := ecsign tx key in
  let '(v, r, s) := sig in
  Ok {| tx_nonce := tx_nonce tx; tx_gasprice := tx_gasprice tx;
        tx_startgas := tx_startgas tx; tx_to := tx_to tx;
        tx_value := tx_value tx; tx_data := tx_data tx;
        tx_v := v; tx_r := r; tx_s := s |}.

(* ===================================================================== *)
(** ** The world and the monad of the methods *)
(* ===================================================================== *)

(** What a method does to the outside, in the order it does it.
    [Enter_get_logs] is a ghost entry: it marks a call of [get_logs] with
    the arguments it received (defaults filled in), so that polls can be
    counted and their arguments inspected. *)
Inductive effect (rpc_params : Type) :=
| Enter_get_logs (event_name : string) (from_block to_block : pyval)
    (filters : option (gmap string pyval))
| Rpc_getTransactionCount (account : string)
| Rpc_request (method : string) (params : list rpc_params)
| Rpc_call_getChannelInfo (contract : string) (sender receiver block : pyval)
| Sleep (seconds : Z).
Arguments Enter_get_logs {rpc_params}.
Arguments Rpc_getTransactionCount {rpc_params}.
Arguments Rpc_request {rpc_params}.
Arguments Rpc_call_getChannelInfo {rpc_params}.
Arguments Sleep {rpc_params}.

Record world (node rpc_params : Type) := World {
  chain : node;
  trace : list (effect rpc_params)
}.
Arguments World {node rpc_params}.
Arguments chain {node rpc_params}.
Arguments trace {node rpc_params}.

Definition is_poll {P} (e : effect P) : bool :=
  match e with Enter_get_logs _ _ _ _ => true | _ => false end.

Definition is_sleep {P} (e : effect P) : bool :=
  match e with Sleep _ => true | _ => false end.

Definition is_request {P} (e : effect P) : bool :=
  match e with Rpc_request _ _ => true | _ => false end.

Definition is_channel_read {P} (e : effect P) : bool :=
  match e with Rpc_call_getChannelInfo _ _ _ _ => true | _ => false end.

(** Number of trace entries of one kind. *)
Definition count {P} (kind : effect P -> bool) (t : list (effect P)) : nat :=
  length (filter (fun e => kind e = true) t).

Section Proxy.

Context {node response rpc_params filter_spec : Type}.
Context `{!ChainTransport node response rpc_params}.
Context `{!AbiCodec response rpc_params filter_spec}.
Context `{!Signer}.

Definition M (A : Type) : Type :=
  world node rpc_params -> result A * world node rpc_params.

Definition ret {A} (a : A) : M A := fun w => (Ok a, w).

Definition bindM {A B} (m : M A) (k : A -> M B) : M B :=
  fun w =>
    match m w with
    | (Ok a, w') => k a w'
    | (Raise e, w') => (Raise e, w')
    end.

Notation "'let!' x ':=' m 'in' k" := (bindM m (fun x => k))
  (at level 10, x name, m at level 100, k at level 200).

(** A pure, possibly raising, step. *)
Definition lift {A} (r : result A) : M A := fun w => (r, w).

(** Append one entry to the trace. *)
Definition emit (e : effect rpc_params) : M unit :=
  fun w => (Ok tt, World (chain w) (trace w ++ [e])).

(** Run a request against the node and record it. *)
Definition perform {A} (e : effect rpc_params) (f : node -> result A * node) : M A :=
  fun w =>
    let answer := f (chain w) in
    (fst answer, World (snd answer) (trace w ++ [e])).

(** [try: m except BadFunctionCallOutput: handler]. *)
Definition try_except_BadFunctionCallOutput {A} (m : M A) (handler : M A) : M A :=
  fun w =>
    match m w with
    | (Raise BadFunctionCallOutput, w') => handler w'
    | other => other
    end.

(* --------------------------------------------------------------------- *)
(** *** class ContractProxy *)
(* --------------------------------------------------------------------- *)

Definition ContractProxy_init (privkey contract_address : string)
    (abi : list abi_entry) (gas_price gas_limit : Z) : ContractProxy :=
  {| privkey := privkey;
     caller_address := "0x" +:+ encode_hex (privtoaddr privkey);
     address := contract_address;
     abi := abi;
     gas_price := gas_price;
     gas_limit := gas_limit |}.

(** Lines 31-34 and the [tx.sign] of line 35: the signed transaction
    object, before serialisation.  [nonce_offset] is [None] when the
    caller leaves it out. *)
Definition signed_transaction (self : ContractProxy) (func_name : string)
    (args : list pyval) (nonce_offset : option Z) : M Transaction :=
  let nonce_offset := default 0 nonce_offset in
  let! count := perform (Rpc_getTransactionCount (caller_address self))
                        (getTransactionCount (caller_address self)) in
  let nonce := count + nonce_offset in
  let! prepared := lift (prepare_transaction (abi self) (address self) func_name args) in
  let! data := lift (getitem prepared "data") in
  let! data := lift (decode_hex data) in
  let tx := Transaction_new nonce (gas_price self) (gas_limit self) (address self) 0 data in
  lift (Transaction_sign tx (privkey self)).

Definition create_transaction (self : ContractProxy) (func_name : string)
    (args : list pyval) (nonce_offset : option Z) : M string :=
  let! signed := signed_transaction self func_name args nonce_offset in
  ret (toHex (rlp_encode signed)).

(** The condition of the comprehension on line 43; [and] does not look at
    [i['name']] unless the type is ['event']. *)
Definition is_event_named (event_name : string) (i : abi_entry) : result bool :=
  let? ty := getitem i "type" in
  if py_eq ty (PStr "event") then
    let? name := getitem i "name" in
    Ok (py_eq name (PStr event_name))
  else Ok false.

(** Line 43: the first ABI entry that is an event of that name. *)
Definition resolve_event (abi : list abi_entry) (event_name : string) : result abi_entry :=
  let? matching := comprehension (is_event_named event_name) abi in
  subscript matching 0.

(** [assert d] on a dict. *)
Definition assert_nonempty {V} (d : gmap string V) : result unit :=
  if bool_decide (d = ∅) then Raise AssertionError else Ok tt.

(** [filters if filters else {}]. *)
Definition filters_or_empty (filters : option (gmap string pyval)) : gmap string pyval :=
  match filters with
  | Some f => if bool_decide (f = ∅) then ∅ else f
  | None => ∅
  end.

(** Lines 52-53 for one log. *)
Definition attach_args (event_abi : abi_entry) (log : log_entry) : result log_entry :=
  let? data := get_event_data event_abi log in
  let? args := getitem data "args" in
  Ok (<["args" := args]> log).

Definition get_logs (self : ContractProxy) (event_name : string)
    (from_block to_block : option pyval) (filters : option (gmap string pyval))
    : M (list log_entry) :=
  let from_block := default (PInt 0) from_block in
  let to_block := default (PStr "latest") to_block in
  let! _ := emit (Enter_get_logs event_name from_block to_block filters) in
  let kwargs := {| fromBlock := from_block; toBlock := to_block;
                   kw_address := address self |} in
  let! event_abi := lift (resolve_event (abi self) event_name) in
  let! _ := lift (assert_nonempty event_abi) in
  let filters := filters_or_empty filters in
  let! constructed := lift (construct_event_filter_params event_abi filters kwargs) in
  let filter_ := snd constructed in
  let! formatted := lift (input_filter_params_formatter filter_) in
  let filter_params := [formatted] in
  let! response := perform (Rpc_request "eth_getLogs" filter_params)
                           (request_blocking "eth_getLogs" filter_params) in
  let! logs := lift (log_array_formatter response) in
  lift (for_each (attach_args event_abi) logs).

(** The filter of line 62: [not condition or condition(event)]. *)
Definition passes (condition : option (log_entry -> result pyval))
    (event : log_entry) : result bool :=
  match condition with
  | None => Ok true
  | Some c => let? v := c event in Ok (py_truthy v)
  end.

(** The body of the [for] loop of [get_event_blocking], over the values
    [range] produced. *)
Fixpoint poll_loop (self : ContractProxy) (event_name : string)
    (from_block to_block : pyval) (filters : option (gmap string pyval))
    (condition : option (log_entry -> result pyval)) (wait timeout : Z)
    (iterations : list Z) : M (option log_entry) :=
  match iterations with
  | [] => ret None
  | i :: rest =>
      let! logs := get_logs self event_name (Some from_block) (Some to_block) filters in
      let! matching_logs := lift (comprehension (passes condition) logs) in
      match matching_logs with
      | first :: _ => ret (Some first)
      | [] =>
          let! _ := (if i <? timeout
                     then perform (Sleep wait) (fun n => (Ok tt, gevent_sleep wait n))
                     else ret tt) in
          poll_loop self event_name from_block to_block filters condition wait timeout rest
      end
  end.

Definition get_event_blocking (self : ContractProxy) (event_name : string)
    (from_block to_block : option pyval) (filters : option (gmap string pyval))
    (condition : option (log_entry -> result pyval)) (wait timeout : option Z)
    : M (option log_entry) :=
  let from_block := default (PInt 0) from_block in
  let to_block := default (PStr "pending") to_block in
  let wait := default DEFAULT_RETRY_INTERVAL wait in
  let timeout := default DEFAULT_TIMEOUT timeout in
  let! iterations := lift (py_range 0 (timeout + wait) wait) in
  poll_loop self event_name from_block to_block filters condition wait timeout iterations.

(* --------------------------------------------------------------------- *)
(** *** class ChannelContractProxy(ContractProxy) *)
(* --------------------------------------------------------------------- *)

Definition ChannelContractProxy_init := ContractProxy_init.

Definition get_channel_created_logs (self : ContractProxy)
    (from_block to_block : option pyval) (filters : option (gmap string pyval)) :=
  get_logs self "ChannelCreated"
    (Some (default (PInt 0) from_block)) (Some (default (PStr "latest") to_block)) filters.

Definition get_channel_topped_up_logs (self : ContractProxy)
    (from_block to_block : option pyval) (filters : option (gmap string pyval)) :=
  get_logs self "ChannelToppedUp"
    (Some (default (PInt 0) from_block)) (Some (default (PStr "latest") to_block)) filters.

Definition get_channel_close_requested_logs (self : ContractProxy)
    (from_block to_block : option pyval) (filters : option (gmap string pyval)) :=
  get_logs self "ChannelCloseRequested"
    (Some (default (PInt 0) from_block)) (Some (default (PStr "latest") to_block)) filters.

Definition get_channel_settled_logs (self : ContractProxy)
    (from_block to_block : option pyval) (filters : option (gmap string pyval)) :=
  get_logs self "ChannelSettled"
    (Some (default (PInt 0) from_block)) (Some (default (PStr "latest") to_block)) filters.

Definition get_channel_topup_logs (self : ContractProxy)
    (from_block to_block : option pyval) (filters : option (gmap string pyval)) :=
  get_logs self "ChannelToppedUp"
    (Some (default (PInt 0) from_block)) (Some (default (PStr "latest") to_block)) filters.

Definition get_channel_created_event_blocking (self : ContractProxy)
    (sender receiver : pyval) (from_block to_block : option pyval)
    (wait timeout : option Z) : M (option log_entry) :=
  let from_block := default (PInt 0) from_block in
  let to_block := default (PStr "pending") to_block in
  let wait := default DEFAULT_RETRY_INTERVAL wait in
  let timeout := default DEFAULT_TIMEOUT timeout in
  let filters : gmap string pyval :=
    {[ "_sender" := sender; "_receiver" := receiver ]} in
  get_event_blocking self "ChannelCreated" (Some from_block) (Some to_block)
    (Some filters) None (Some wait) (Some timeout).

(** The nested function [condition] of lines 112-114; the second
    comparison is not evaluated when the first one fails. *)
Definition topped_up_condition (deposit topup : pyval) (event : log_entry) : result pyval :=
  let? d := event_arg event "_deposit" in
  if py_eq d deposit then
    let? a := event_arg event "_added_deposit" in
    Ok (PBool (py_eq a topup))
  else Ok (PBool false).

Definition get_channel_topped_up_event_blocking (self : ContractProxy)
    (sender receiver opening_block deposit topup : pyval)
    (from_block to_block : option pyval) (wait timeout : option Z)
    : M (option log_entry) :=
  let from_block := default (PInt 0) from_block in
  let to_block := default (PStr "pending") to_block in
  let wait := default DEFAULT_RETRY_INTERVAL wait in
  let timeout := default DEFAULT_TIMEOUT timeout in
  let filters : gmap string pyval :=
    {[ "_sender" := sender; "_receiver" := receiver;
       "_open_block_number" := opening_block ]} in
  get_event_blocking self "ChannelToppedUp" (Some from_block) (Some to_block)
    (Some filters) (Some (topped_up_condition deposit topup)) (Some wait) (Some timeout).

Definition get_channel_close_requested_event_blocking (self : ContractProxy)
    (sender receiver opening_block : pyval)
    (from_block to_block : option pyval) (wait timeout : option Z)
    : M (option log_entry) :=
  let from_block := default (PInt 0) from_block in
  let to_block := default (PStr "pending") to_block in
  let wait := default DEFAULT_RETRY_INTERVAL wait in
  let timeout := default DEFAULT_TIMEOUT timeout in
  let filters : gmap string pyval :=
    {[ "_sender" := sender; "_receiver" := receiver;
       "_open_block_number" := opening_block ]} in
  get_event_blocking self "ChannelCloseRequested" (Some from_block) (Some to_block)
    (Some filters) None (Some wait) (Some timeout).

Definition get_channel_settle_event_blocking (self : ContractProxy)
    (sender receiver opening_block : pyval)
    (from_block to_block : option pyval) (wait timeout : option Z)
    : M (option log_entry) :=
  let from_block := default (PInt 0) from_block in
  let to_block := default (PStr "pending") to_block in
  let wait := default DEFAULT_RETRY_INTERVAL wait in
  let timeout := default DEFAULT_TIMEOUT timeout in
  let filters : gmap string pyval :=
    {[ "_sender" := sender; "_receiver" := receiver;
       "_open_block_number" := opening_block ]} in
  get_event_blocking self "ChannelSettled" (Some from_block) (Some to_block)
    (Some filters) None (Some wait) (Some timeout).

(** The [try] statement of lines 149-153: [Some channel_info] when the
    call returns, [None] when the handler has run (the function then
    returns [None] at once). *)
Definition try_getChannelInfo (self : ContractProxy)
    (sender receiver open_block_number : pyval) : M (option (list pyval)) :=
  try_except_BadFunctionCallOutput
    (let! channel_info :=
       perform (Rpc_call_getChannelInfo (address self) sender receiver open_block_number)
               (call_getChannelInfo (address self) sender receiver open_block_number) in
     ret (Some channel_info))
    (ret None).

Definition get_settle_timeout (self : ContractProxy)
    (sender receiver open_block_number : pyval) : M pyval :=
  let! tried := try_getChannelInfo self sender receiver open_block_number in
  match tried with
  | None => ret PNone
  | Some channel_info => lift (subscript channel_info 3)
  end.

End Proxy.

(* ===================================================================== *)
(** ** A small concrete node *)
(* ===================================================================== *)

(** A node with a clock: a log becomes visible once the clock has reached
    the time it is scheduled at, sleeping advances the clock, and one
    channel exists.  Used to run the methods on concrete inputs. *)
Module Toy.

Record node := Node {
  clock : Z;
  tx_count : Z;
  scheduled : list (Z * log_entry)
}.

Definition visible (n : node) : list log_entry :=
  map snd (List.filter (fun p : Z * log_entry => fst p <=? clock n) (scheduled n)).

Abbreviation spec := (gmap string pyval * filter_kwargs)%type.

#[global] Instance transport : ChainTransport node (list log_entry) spec := {
  getTransactionCount _ n := (Ok (tx_count n), n);
  request_blocking _ _ n := (Ok (visible n), n);
  call_getChannelInfo _ sender _ _ n :=
    (if py_eq sender (PStr "0xA")
     then Ok [PStr "key"; PInt 100; PInt 0; PInt 30]
     else if py_eq sender PNone
     then Raise (ExternalError "connection refused")
     else Raise BadFunctionCallOutput, n);
  gevent_sleep seconds n := Node (clock n + seconds) (tx_count n) (scheduled n)
}.

#[global] Instance codec : AbiCodec (list log_entry) spec spec := {
  prepare_transaction _ to func_name _ :=
    Ok {[ "to" := PStr to; "data" := PStr func_name ]};
  decode_hex v := match v with PStr s => Ok s | _ => Raise TypeError end;
  construct_event_filter_params _ filters kwargs := Ok ([], (filters, kwargs));
  input_filter_params_formatter f := Ok f;
  log_array_formatter response := Ok response;
  get_event_data event_abi log :=
    match log !! "data" with
    | Some d => Ok {[ "event" := LScalar (default PNone (event_abi !! "name")); "args" := d ]}
    | None => Raise (ExternalError "undecodable log")
    end
}.

#[global] Instance signer : Signer := {
  privtoaddr key := key;
  encode_hex b := b;
  ecsign tx _ := Ok (27, tx_nonce tx + 1, 1);
  rlp_encode tx := tx_data tx;
  toHex b := "0x" +:+ b
}.

Definition event_entry (name : string) : abi_entry :=
  {[ "type" := PStr "event"; "name" := PStr name ]}.

Definition function_entry (name : string) : abi_entry :=
  {[ "type" := PStr "function"; "name" := PStr name ]}.

Definition channel_abi : list abi_entry :=
  [ function_entry "createChannel"; event_entry "ChannelCreated";
    event_entry "ChannelToppedUp"; event_entry "ChannelCloseRequested";
    event_entry "ChannelSettled" ].

Definition proxy : ContractProxy :=
  ChannelContractProxy_init "cafe" "0xC0" channel_abi 20 130000.

(** The same proxy over an ABI that declares ChannelCreated twice. *)
Definition ambiguous_proxy : ContractProxy :=
  ChannelContractProxy_init "cafe" "0xC0"
    (<["anonymous" := PBool false]> (event_entry "ChannelCreated") :: channel_abi)
    20 130000.

(** The same proxy over an ABI without events. *)
Definition eventless_proxy : ContractProxy :=
  ChannelContractProxy_init "cafe" "0xC0" [function_entry "createChannel"] 20 130000.

Definition raw_log (block : Z) (args : gmap string pyval) : log_entry :=
  {[ "blockNumber" := LScalar (PInt block); "data" := LDict args ]}.

Definition topped_up (block deposit added : Z) : log_entry :=
  raw_log block {[ "_deposit" := PInt deposit; "_added_deposit" := PInt added ]}.

(** Nothing ever happens on this node. *)
Definition quiet : world node spec := World (Node 0 7 []) [].

(** A top-up of 50 to a deposit of 100 is visible from the start, after
    an earlier top-up of 10 to 50. *)
Definition busy : world node spec :=
  World (Node 0 7 [(0, topped_up 10 50 10); (0, topped_up 12 100 50)]) [].

(** The same logs seen later, after other traffic. *)
Definition busy_later : world node spec :=
  World (Node 9 8 [(0, topped_up 10 50 10); (0, topped_up 12 100 50)]) [Sleep 9].

(** The channel-created log shows up at time 4. *)
Definition late : world node spec :=
  World (Node 0 7 [(4, raw_log 10 {[ "_sender" := PStr "0xA"; "_receiver" := PStr "0xB" ]})]) [].

(** A node that cannot be reached: every request fails. *)
#[global] Instance offline : ChainTransport unit (list log_entry) spec := {
  getTransactionCount _ n := (Raise (ExternalError "connection refused"), n);
  request_blocking _ _ n := (Raise (ExternalError "connection refused"), n);
  call_getChannelInfo _ _ _ _ n := (Raise (ExternalError "connection refused"), n);
  gevent_sleep _ n := n
}.

Definition unreachable : world unit spec := World tt [].

(** The channel-created log is there from the start. *)
Definition opened : world node spec :=
  World (Node 0 7 [(0, raw_log 10 {[ "_sender" := PStr "0xA"; "_receiver" := PStr "0xB" ]})]) [].

(** A matching top-up, followed by a log whose decoded arguments lack
    the deposit. *)
Definition odd : world node spec :=
  World (Node 0 7 [(0, topped_up 12 100 50);
                   (0, raw_log 13 {[ "_added_deposit" := PInt 50 ]})]) [].

(** A log the decoder cannot decode. *)
Definition broken : world node spec :=
  World (Node 0 7 [(0, {[ "blockNumber" := LScalar (PInt 5) ]})]) [].

(** The quiet node after three more transactions of the account. *)
Definition quiet_later : world node spec := World (Node 30 10 []) [Sleep 30].

(** A constructor entry, as compilers emit it: no name. *)
Definition constructor_entry : abi_entry := {[ "type" := PStr "constructor" ]}.

(** The channel ABI with its constructor listed first. *)
Definition deployed_proxy : ContractProxy :=
  ChannelContractProxy_init "cafe" "0xC0" (constructor_entry :: channel_abi) 20 130000.

(** The channel ABI followed by an entry without a type. *)
Definition sloppy_proxy : ContractProxy :=
  ChannelContractProxy_init "cafe" "0xC0"
    (channel_abi ++ [ {[ "name" := PStr "orphan" ]} ]) 20 130000.

End Toy.

(* ===================================================================== *)
(** ** Facts about the Python fragments *)
(* ===================================================================== *)

Lemma count_app {P} (kind : effect P -> bool) (t u : list (effect P)) :
  count kind (t ++ u) = (count kind t + count kind u)%nat.
Proof. unfold count. by rewrite filter_app, length_app. Qed.

Lemma count_nil {P} (kind : effect P -> bool) : count kind [] = 0%nat.
Proof. reflexivity. Qed.

Lemma count_cons {P} (kind : effect P -> bool) (e : effect P) (t : list (effect P)) :
  count kind (e :: t) = ((if kind e then 1 else 0) + count kind t)%nat.
Proof.
  unfold count. destruct (kind e) eqn:E.
  - by rewrite filter_cons_True.
  - rewrite filter_cons_False; [done | congruence].
Qed.

(** For a positive step, [range(0, stop, step)] is [0, step, 2*step, ...],
    with ceil(stop/step) elements. *)
Lemma py_range_positive (stop step : Z) :
  0 < step -> 0 <= stop ->
  py_range 0 stop step =
    Ok (map (fun k : nat => Z.of_nat k * step)
            (seq 0 (Z.to_nat ((stop + step - 1) / step)))).
Proof.
  intros Hstep Hstop. unfold py_range, range_length.
  destruct (Z.eqb_spec step 0) as [->|_]; [lia|].
  destruct (Z.ltb_spec 0 step) as [_|]; [|lia].
  destruct (Z.ltb_spec 0 stop) as [Hpos|Hle].
  - do 3 f_equal.
    replace (stop + step - 1) with ((stop - 0 - 1) + 1 * step) by lia.
    rewrite Z.div_add by lia. reflexivity.
  - assert (stop = 0) as -> by lia.
    rewrite Z.div_small by lia. reflexivity.
Qed.

(** A comprehension whose condition never raises is a plain filter. *)
Lemma comprehension_total {A} (p : A -> result bool) (q : A -> bool) (l : list A) :
  Forall (fun x => p x = Ok (q x)) l ->
  comprehension p l = Ok (List.filter q l).
Proof.
  induction 1 as [|x l Hx Hl IH]; simpl; [done|].
  rewrite Hx, IH. simpl. by destruct (q x).
Qed.

(** The head of a filtered list is the first element that passes. *)
Lemma filter_head_first {A} (q : A -> bool) (l : list A) (x : A) (xs : list A) :
  List.filter q l = x :: xs ->
  exists before after,
    l = before ++ x :: after /\ Forall (fun y => q y = false) before /\ q x = true.
Proof.
  induction l as [|y l IH]; simpl; [done|].
  destruct (q y) eqn:E.
  - intros [= -> <-]. by exists [], l.
  - intros H. destruct (IH H) as (b & a & -> & Hb & Hx).
    exists (y :: b), a. split; [done|]. split; [by constructor|done].
Qed.

Lemma comprehension_none {A} (p : A -> result bool) (l : list A) :
  Forall (fun x => p x = Ok false) l -> comprehension p l = Ok [].
Proof.
  intros H. rewrite (comprehension_total p (fun _ => false)); [|done].
  f_equal. induction l; simpl; [done|]. apply IHl. by inversion H.
Qed.

(** [k * step < stop] exactly for the first ceil(stop/step) values of
    [k]. *)
Lemma below_stop_iff (stop step : Z) (k : nat) :
  0 < step -> 0 <= stop ->
  (Z.of_nat k * step <? stop) = (Z.of_nat k <? (stop + step - 1) / step).
Proof.
  intros Hstep Hstop.
  pose proof (Z.mul_div_le (stop + step - 1) step Hstep) as Hlo.
  pose proof (Z.mul_succ_div_gt (stop + step - 1) step Hstep) as Hhi.
  set (c := (stop + step - 1) / step) in *.
  destruct (Z.ltb_spec (Z.of_nat k) c) as [Hk|Hk];
    destruct (Z.ltb_spec (Z.of_nat k * step) stop) as [Hs|Hs]; try done.
  - assert (Z.of_nat k * step <= (c - 1) * step) by (apply Z.mul_le_mono_nonneg_r; lia).
    lia.
  - assert (c * step <= Z.of_nat k * step) by (apply Z.mul_le_mono_nonneg_r; lia).
    lia.
Qed.

(** Among the first [n] multiples of the step, those below [stop]. *)
Lemma multiples_below (stop step : Z) (n : nat) :
  0 < step -> 0 <= stop ->
  length (List.filter (fun i : Z => i <? stop)
            (map (fun k : nat => Z.of_nat k * step) (seq 0 n)))
  = Nat.min n (Z.to_nat ((stop + step - 1) / step)).
Proof.
  intros Hstep Hstop.
  assert (0 <= (stop + step - 1) / step) by (apply Z.div_pos; lia).
  induction n as [|n IH]; [done|].
  rewrite seq_S, map_app, List.filter_app, length_app, IH.
  cbn [map List.filter Nat.add].
  rewrite below_stop_iff by done.
  destruct (Z.ltb_spec (Z.of_nat n) ((stop + step - 1) / step)); cbn [length]; lia.
Qed.

(** ceil(T/w) is floor(T/w) when w divides T, and one more otherwise. *)
Lemma ceiling_floor (T w : Z) :
  0 < w -> 0 <= T ->
  (T + w - 1) / w = T / w + (if T mod w =? 0 then 0 else 1).
Proof.
  intros Hw HT.
  pose proof (Z.div_mod T w ltac:(lia)) as Hdm.
  pose proof (Z.mod_pos_bound T w Hw) as Hb.
  destruct (Z.eqb_spec (T mod w) 0) as [Hz|Hnz].
  - replace (T + w - 1) with ((w - 1) + (T / w) * w) by lia.
    rewrite Z.div_add by lia. rewrite Z.div_small by lia. lia.
  - replace (T + w - 1) with ((T mod w - 1) + (T / w + 1) * w) by lia.
    rewrite Z.div_add by lia. rewrite Z.div_small by lia. lia.
Qed.

(* ===================================================================== *)
(** ** Facts about the proxy *)
(* ===================================================================== *)

Section ProxyFacts.

Context {node response rpc_params filter_spec : Type}.
Context `{!ChainTransport node response rpc_params}.
Context `{!AbiCodec response rpc_params filter_spec}.
Context `{!Signer}.

Implicit Types (w : world node rpc_params) (self : ContractProxy).

(** Case analysis on the next step of a computation in [M] or [result]. *)
Ltac next_step :=
  match goal with
  | |- context [match ?r with Ok _ => _ | Raise _ => _ end] =>
      lazymatch r with
      | Ok _ => fail
      | Raise _ => fail
      | _ => destruct r eqn:?
      end
  | |- context [let '(_, _) := ?p in _] =>
      lazymatch p with
      | (_, _) => fail
      | _ => destruct p eqn:?
      end
  end.

Ltac run := cbn -[Z.add Z.mul Z.div Z.ltb]; repeat (next_step; cbn -[Z.add Z.mul Z.div Z.ltb]).

(** What one call of [get_logs] adds to the trace: its own ghost entry,
    then at most one request, and nothing else. *)
Lemma get_logs_trace self event_name from_block to_block filters w :
  exists requests,
    trace (snd (get_logs self event_name (Some from_block) (Some to_block) filters w))
      = trace w ++ Enter_get_logs event_name from_block to_block filters :: requests
    /\ Forall (fun e => is_request e = true) requests
    /\ (length requests <= 1)%nat.
Proof.
  unfold get_logs, bindM, lift, emit, perform.
  run.
  all: try (exists []; rewrite <- ?app_assoc; simpl; repeat split; auto; fail).
  all: eexists [_]; rewrite <- ?app_assoc; simpl; repeat split; eauto.
Qed.

Lemma requests_are_not_polls (t : list (effect rpc_params)) :
  Forall (fun e => is_request e = true) t ->
  count is_poll t = 0%nat /\ count is_sleep t = 0%nat.
Proof.
  induction 1 as [|e t He _ [IHp IHs]]; [done|].
  rewrite !count_cons, IHp, IHs. by destruct e.
Qed.

(** One call of [get_logs] is one poll and no sleep. *)
Lemma get_logs_counts self event_name from_block to_block filters w :
  let w1 := snd (get_logs self event_name (Some from_block) (Some to_block) filters w) in
  count is_poll (trace w1) = S (count is_poll (trace w))
  /\ count is_sleep (trace w1) = count is_sleep (trace w).
Proof.
  destruct (get_logs_trace self event_name from_block to_block filters w)
    as (requests & Ht & Hreq & _).
  cbv zeta. rewrite Ht.
  destruct (requests_are_not_polls _ Hreq) as [Hp Hs].
  rewrite !count_app, !count_cons, Hp, Hs. simpl. lia.
Qed.

(** One turn of the loop of [get_event_blocking], spelled out. *)
Lemma poll_loop_cons self event_name from_block to_block filters condition
    wait timeout i rest w :
  poll_loop self event_name from_block to_block filters condition wait timeout (i :: rest) w =
    match get_logs self event_name (Some from_block) (Some to_block) filters w with
    | (Ok logs, w1) =>
        match comprehension (passes condition) logs with
        | Ok (first :: _) => (Ok (Some first), w1)
        | Ok [] =>
            poll_loop self event_name from_block to_block filters condition wait timeout rest
              (if i <? timeout
               then World (gevent_sleep wait (chain w1)) (trace w1 ++ [Sleep wait])
               else w1)
        | Raise e => (Raise e, w1)
        end
    | (Raise e, w1) => (Raise e, w1)
    end.
Proof.
  cbn [poll_loop]. unfold bindM at 1.
  destruct (get_logs _ _ _ _ _ w) as [[logs|e] w1]; [|done].
  unfold bindM at 1. unfold lift at 1.
  destruct (comprehension _ logs) as [[|first others]|e]; [|done|done].
  unfold bindM at 1. by destruct (i <? timeout).
Qed.

(** What a comprehension keeps passed its condition and came from the
    list. *)
Lemma comprehension_kept {A} (p : A -> result bool) (l kept : list A) :
  comprehension p l = Ok kept ->
  Forall (fun x => p x = Ok true /\ x ∈ l) kept.
Proof.
  revert kept. induction l as [|x l IH]; simpl; intros kept.
  - intros [= <-]. constructor.
  - destruct (p x) as [keep|] eqn:Hx; simpl; [|done].
    destruct (comprehension p l) as [kept'|]; simpl; [|done].
    intros [= <-]. specialize (IH _ eq_refl).
    assert (Forall (fun y => p y = Ok true /\ y ∈ x :: l) kept') as Hrest.
    { eapply Forall_impl; [exact IH|]. intros y [? ?]. split; [done|]. by right. }
    destruct keep; [|done]. constructor; [|done]. split; [done|]. by left.
Qed.

(** The waiter only ever returns an entry that passed the condition. *)
Lemma poll_loop_returns_passing self event_name from_block to_block filters
    condition wait timeout iterations w event w' :
  poll_loop self event_name from_block to_block filters condition wait timeout iterations w
    = (Ok (Some event), w') ->
  passes condition event = Ok true.
Proof.
  revert w. induction iterations as [|i rest IH]; intros w; [done|].
  rewrite poll_loop_cons.
  destruct (get_logs _ _ _ _ _ w) as [[logs|e] w1]; [|done].
  destruct (comprehension _ logs) as [[|first others]|e] eqn:Hc; [|..|done].
  - apply IH.
  - intros [= <- <-]. apply comprehension_kept in Hc.
    by inversion Hc as [|? ? [? _]].
Qed.

(** Every poll made by the loop carries the loop's own arguments. *)
Lemma poll_loop_trace self event_name from_block to_block filters condition
    wait timeout iterations w :
  exists added,
    trace (snd (poll_loop self event_name from_block to_block filters condition
                  wait timeout iterations w)) = trace w ++ added
    /\ Forall (fun e => is_poll e = true ->
                        e = Enter_get_logs event_name from_block to_block filters) added.
Proof.
  revert w. induction iterations as [|i rest IH]; intros w.
  { exists []. by rewrite app_nil_r. }
  rewrite poll_loop_cons.
  destruct (get_logs_trace self event_name from_block to_block filters w)
    as (requests & Ht & Hreq & _).
  assert (Forall (fun e => is_poll e = true ->
            e = Enter_get_logs event_name from_block to_block filters)
          (Enter_get_logs event_name from_block to_block filters :: requests)) as Hone.
  { constructor; [done|]. eapply Forall_impl; [exact Hreq|]. by intros []. }
  destruct (get_logs _ _ _ _ _ w) as [[logs|e] w1]; simpl in Ht; [|by eauto].
  destruct (comprehension _ logs) as [[|first others]|e]; [|by eauto..].
  match goal with |- context [poll_loop _ _ _ _ _ _ _ _ rest ?w2] =>
    destruct (IH w2) as (added & -> & Hadded) end.
  destruct (i <? timeout); simpl; rewrite Ht.
  - exists ((Enter_get_logs event_name from_block to_block filters :: requests)
            ++ Sleep wait :: added).
    split; [by rewrite <- !app_assoc|].
    apply Forall_app; split; [done|]. by constructor.
  - exists ((Enter_get_logs event_name from_block to_block filters :: requests) ++ added).
    split; [by rewrite <- !app_assoc|]. by apply Forall_app.
Qed.

(** When no poll ever finds a passing entry, the loop runs through all
    its iterations: one poll for each, one sleep for each iteration value
    below the timeout, and it returns [None]. *)
Lemma poll_loop_exhausts self event_name from_block to_block filters condition
    wait timeout (Inv : node -> Prop) :
  (forall n, Inv n -> Inv (gevent_sleep wait n)) ->
  (forall w0, Inv (chain w0) ->
     exists logs w1,
       get_logs self event_name (Some from_block) (Some to_block) filters w0 = (Ok logs, w1)
       /\ Inv (chain w1)
       /\ comprehension (passes condition) logs = Ok []) ->
  forall iterations w, Inv (chain w) ->
  exists w',
    poll_loop self event_name from_block to_block filters condition wait timeout iterations w
      = (Ok None, w')
    /\ Inv (chain w')
    /\ count is_poll (trace w') = (count is_poll (trace w) + length iterations)%nat
    /\ count is_sleep (trace w') =
         (count is_sleep (trace w)
          + length (List.filter (fun i : Z => (i <? timeout)%Z) iterations))%nat.
Proof.
  intros Hsleep Hpoll. induction iterations as [|i rest IH]; intros w Hw.
  { exists w. simpl. repeat split; [done|lia..]. }
  rewrite poll_loop_cons.
  pose proof (get_logs_counts self event_name from_block to_block filters w) as Hcount.
  destruct (Hpoll w Hw) as (logs & w1 & Hlogs & Hw1 & Hnone).
  rewrite Hlogs in *. rewrite Hnone. simpl in Hcount. destruct Hcount as [Hp Hs].
  cbn [List.filter length].
  destruct (i <? timeout).
  - destruct (IH (World (gevent_sleep wait (chain w1)) (trace w1 ++ [Sleep wait])))
      as (w' & -> & Hw' & Hp' & Hs'); [by apply Hsleep|].
    exists w'. split; [done|]. split; [done|].
    rewrite Hp', Hs'. simpl. rewrite !count_app, !count_cons, !count_nil, Hp, Hs.
    simpl. lia.
  - destruct (IH w1 Hw1) as (w' & -> & Hw' & Hp' & Hs').
    exists w'. split; [done|]. split; [done|]. rewrite Hp', Hs', Hp, Hs. lia.
Qed.

(* --------------------------------------------------------------------- *)
(** *** The timeout bound of the blocking waiter *)
(* --------------------------------------------------------------------- *)

(** A blocking wait whose polls never find a passing entry: the node
    stays within an invariant [Inv] that sleeping and polling preserve
    and under which a poll succeeds with no passing entry. *)
Lemma get_event_blocking_exhausts self event_name from_block to_block filters condition
    (wait timeout : option Z) (Inv : node -> Prop) w :
  let T := default DEFAULT_TIMEOUT timeout in
  let wt := default DEFAULT_RETRY_INTERVAL wait in
  0 <= T -> 0 < wt ->
  Inv (chain w) ->
  (forall n, Inv n -> Inv (gevent_sleep wt n)) ->
  (forall w0, Inv (chain w0) ->
     exists logs w1,
       get_logs self event_name (Some (default (PInt 0) from_block))
         (Some (default (PStr "pending") to_block)) filters w0 = (Ok logs, w1)
       /\ Inv (chain w1)
       /\ comprehension (passes condition) logs = Ok []) ->
  exists w',
    get_event_blocking self event_name from_block to_block filters condition wait timeout w
      = (Ok None, w')
    /\ count is_poll (trace w')
        = (count is_poll (trace w) + Z.to_nat ((T + wt - 1) / wt + 1))%nat
    /\ count is_sleep (trace w')
        = (count is_sleep (trace w) + Z.to_nat ((T + wt - 1) / wt))%nat.
Proof.
  intros T wt HT Hwt Hw Hsleep Hpoll.
  unfold get_event_blocking. fold T wt.
  unfold bindM at 1. unfold lift at 1.
  rewrite py_range_positive by lia.
  replace (T + wt + wt - 1) with ((T + wt - 1) + 1 * wt) by lia.
  rewrite Z.div_add by lia.
  assert (0 <= (T + wt - 1) / wt) as Hc by (apply Z.div_pos; lia).
  destruct (poll_loop_exhausts self event_name (default (PInt 0) from_block)
              (default (PStr "pending") to_block) filters condition wt T Inv
              Hsleep Hpoll
              (map (fun k : nat => Z.of_nat k * wt)
                   (seq 0 (Z.to_nat ((T + wt - 1) / wt + 1)))) w Hw)
    as (w' & Hrun & _ & Hp & Hs).
  exists w'. split; [exact Hrun|].
  rewrite Hp, Hs, length_map, length_seq, multiples_below by lia.
  split; [done|]. lia.
Qed.

(** C1 (as amended).  For a timeout T >= 0 and a wait interval w > 0, a
    call of [get_event_blocking] whose polls never yield a passing entry
    returns [None] after exactly ceil(T/w) + 1 calls of [get_logs] and
    ceil(T/w) sleeps.  That is floor(T/w) + 1 polls when w divides T and
    floor(T/w) + 2 polls otherwise.  "Never yield a passing entry" is
    stated with an invariant [Inv] of the node that sleeping and polling
    preserve and under which a poll succeeds with no passing entry. *)
Theorem C1_polls_until_timeout self event_name from_block to_block filters condition
    (wait timeout : option Z) (Inv : node -> Prop) w :
  let T := default DEFAULT_TIMEOUT timeout in
  let wt := default DEFAULT_RETRY_INTERVAL wait in
  0 <= T -> 0 < wt ->
  Inv (chain w) ->
  (forall n, Inv n -> Inv (gevent_sleep wt n)) ->
  (forall w0, Inv (chain w0) ->
     exists logs w1,
       get_logs self event_name (Some (default (PInt 0) from_block))
         (Some (default (PStr "pending") to_block)) filters w0 = (Ok logs, w1)
       /\ Inv (chain w1)
       /\ comprehension (passes condition) logs = Ok []) ->
  exists w',
    get_event_blocking self event_name from_block to_block filters condition wait timeout w
      = (Ok None, w')
    /\ count is_poll (trace w')
        = (count is_poll (trace w) + Z.to_nat ((T + wt - 1) / wt + 1))%nat
    /\ count is_sleep (trace w')
        = (count is_sleep (trace w) + Z.to_nat ((T + wt - 1) / wt))%nat
    /\ (T + wt - 1) / wt + 1 = T / wt + (if T mod wt =? 0 then 1 else 2).
Proof.
  intros T wt HT Hwt Hw Hsleep Hpoll.
  destruct (get_event_blocking_exhausts self event_name from_block to_block filters
              condition wait timeout Inv w HT Hwt Hw Hsleep Hpoll)
    as (w' & Hrun & Hp & Hs).
  exists w'. repeat (split; [done|]).
  fold T wt. rewrite ceiling_floor by lia. destruct (T mod wt =? 0); lia.
Qed.

(* --------------------------------------------------------------------- *)
(** *** Resolving the event name *)
(* --------------------------------------------------------------------- *)

Lemma is_event_named_nonempty event_name (i : abi_entry) :
  is_event_named event_name i = Ok true -> assert_nonempty i = Ok tt.
Proof.
  unfold is_event_named, assert_nonempty, getitem.
  destruct (i !! "type") eqn:Hty; [|done]. intros _.
  rewrite bool_decide_eq_false_2; [done|]. intros ->. by rewrite lookup_empty in Hty.
Qed.

(** On an ABI whose entries can all be inspected, line 43 picks the first
    entry that is an event of the requested name, and raises IndexError
    when there is none. *)
Lemma resolve_event_filter (abi : list abi_entry) event_name :
  Forall (fun i => exists b, is_event_named event_name i = Ok b) abi ->
  resolve_event abi event_name =
    subscript (List.filter (fun i => match is_event_named event_name i with
                                     | Ok b => b
                                     | Raise _ => false
                                     end) abi) 0.
Proof.
  intros Hwf. unfold resolve_event.
  erewrite comprehension_total; [done|].
  eapply Forall_impl; [exact Hwf|]. intros i [b ->]. done.
Qed.

(** C2 (as amended).  On an ABI whose entries can all be inspected,
    [get_logs] raises IndexError, before any request to the node, when no
    ABI entry is an event of the requested name, and so does
    [get_event_blocking]; when one or more entries match, it goes on with
    the first of them in ABI order and, once the filter is built, issues
    its request. *)
Theorem C2_event_resolution self event_name from_block to_block filters w :
  Forall (fun i => exists b, is_event_named event_name i = Ok b) (abi self) ->
  let matching :=
    List.filter (fun i => match is_event_named event_name i with
                          | Ok b => b
                          | Raise _ => false
                          end) (abi self) in
  (matching = [] ->
     get_logs self event_name from_block to_block filters w
       = (Raise IndexError,
          World (chain w)
            (trace w ++ [Enter_get_logs event_name (default (PInt 0) from_block)
                           (default (PStr "latest") to_block) filters]))
     /\ forall condition wait timeout,
          0 < default DEFAULT_RETRY_INTERVAL wait ->
          0 <= default DEFAULT_TIMEOUT timeout ->
          get_event_blocking self event_name from_block to_block filters condition
            wait timeout w
          = (Raise IndexError,
             World (chain w)
               (trace w ++ [Enter_get_logs event_name (default (PInt 0) from_block)
                              (default (PStr "pending") to_block) filters])))
  /\ (forall first others constructed formatted,
        matching = first :: others ->
        construct_event_filter_params first (filters_or_empty filters)
          {| fromBlock := default (PInt 0) from_block;
             toBlock := default (PStr "latest") to_block;
             kw_address := address self |} = Ok constructed ->
        input_filter_params_formatter (snd constructed) = Ok formatted ->
        resolve_event (abi self) event_name = Ok first
        /\ trace (snd (get_logs self event_name from_block to_block filters w))
           = trace w ++ [Enter_get_logs event_name (default (PInt 0) from_block)
                           (default (PStr "latest") to_block) filters;
                         Rpc_request "eth_getLogs" [formatted]]).
Proof.
  intros Hwf matching. pose proof (resolve_event_filter _ _ Hwf) as Hres.
  fold matching in Hres. split.
  - intros Hnone. rewrite Hnone in Hres. cbn in Hres.
    assert (forall fb tb, get_logs self event_name fb tb filters w
              = (Raise IndexError,
                 World (chain w)
                   (trace w ++ [Enter_get_logs event_name (default (PInt 0) fb)
                                  (default (PStr "latest") tb) filters]))) as Hlogs.
    { intros fb tb. unfold get_logs, bindM, emit, lift. by rewrite Hres. }
    split; [apply Hlogs|].
    intros condition wait timeout Hwait Htimeout.
    unfold get_event_blocking, bindM at 1, lift at 1.
    rewrite py_range_positive by lia.
    set (T := default DEFAULT_TIMEOUT timeout) in *.
    set (wt := default DEFAULT_RETRY_INTERVAL wait) in *.
    replace (T + wt + wt - 1) with ((T + wt - 1) + 1 * wt) by lia.
    rewrite Z.div_add by lia.
    assert (0 <= (T + wt - 1) / wt) as Hc by (apply Z.div_pos; lia).
    replace (Z.to_nat ((T + wt - 1) / wt + 1)) with (S (Z.to_nat ((T + wt - 1) / wt)))
      by lia.
    cbn [seq map]. rewrite poll_loop_cons. by rewrite Hlogs.
  - intros first others constructed formatted Hsome Hc Hf.
    rewrite Hsome in Hres. cbn in Hres. split; [exact Hres|].
    assert (is_event_named event_name first = Ok true) as Hfirst.
    { assert (In first matching) as Hin by (rewrite Hsome; by left).
      apply filter_In in Hin as [_ Hin].
      destruct (is_event_named event_name first) as [[]|]; done. }
    unfold get_logs, bindM, emit, lift, perform.
    rewrite Hres. cbn. rewrite (is_event_named_nonempty _ _ Hfirst). cbn.
    rewrite Hc. cbn. rewrite Hf. cbn.
    destruct (request_blocking _ _ _) as [[response0|e] n]; cbn.
    + destruct (log_array_formatter response0); cbn; by rewrite <- app_assoc.
    + by rewrite <- app_assoc.
Qed.

(* --------------------------------------------------------------------- *)
(** *** One poll cycle *)
(* --------------------------------------------------------------------- *)

(** With a positive interval and a non-negative timeout the loop has a
    first iteration, at [i = 0]. *)
Lemma py_range_first (timeout wait : Z) :
  0 < wait -> 0 <= timeout ->
  exists rest, py_range 0 (timeout + wait) wait = Ok (0 :: rest)
               /\ (timeout = 0 -> rest = []).
Proof.
  intros Hwait Htimeout. rewrite py_range_positive by lia.
  replace (timeout + wait + wait - 1) with ((timeout + wait - 1) + 1 * wait) by lia.
  rewrite Z.div_add by lia.
  assert (0 <= (timeout + wait - 1) / wait) as Hc by (apply Z.div_pos; lia).
  replace (Z.to_nat ((timeout + wait - 1) / wait + 1))
    with (S (Z.to_nat ((timeout + wait - 1) / wait))) by lia.
  cbn [seq map]. eexists. split; [reflexivity|].
  intros ->. rewrite Z.div_small by lia. reflexivity.
Qed.

(** C3.  For every wait interval w > 0, [get_event_blocking] with
    timeout 0 does what one call of [get_logs] does and nothing more: one
    poll, no sleep, and it returns the first entry that passed the
    condition, or [None] when none did (an exception of the poll or of
    the condition propagates). *)
Theorem C3_zero_timeout self event_name from_block to_block filters condition wait w :
  0 < default DEFAULT_RETRY_INTERVAL wait ->
  let polled := get_logs self event_name (Some (default (PInt 0) from_block))
                  (Some (default (PStr "pending") to_block)) filters w in
  let run := get_event_blocking self event_name from_block to_block filters condition
               wait (Some 0) w in
  snd run = snd polled
  /\ fst run = (let? logs := fst polled in
                let? matching_logs := comprehension (passes condition) logs in
                Ok (head matching_logs))
  /\ count is_poll (trace (snd run)) = S (count is_poll (trace w))
  /\ count is_sleep (trace (snd run)) = count is_sleep (trace w).
Proof.
  intros Hwait polled run.
  pose proof (get_logs_counts self event_name (default (PInt 0) from_block)
                (default (PStr "pending") to_block) filters w) as Hcount.
  fold polled in Hcount. cbv zeta in Hcount.
  assert (run = (let? logs := fst polled in
                 let? matching_logs := comprehension (passes condition) logs in
                 Ok (head matching_logs), snd polled)) as ->.
  { subst run. unfold get_event_blocking, bindM at 1, lift at 1.
    destruct (py_range_first 0 (default DEFAULT_RETRY_INTERVAL wait)) as (rest & Hr & Hrest);
      [lia..|].
    change (default DEFAULT_TIMEOUT (Some 0)) with 0.
    rewrite Hr, (Hrest eq_refl). rewrite poll_loop_cons.
    fold polled. destruct polled as [[logs|e] w1]; cbn; [|done].
    destruct (comprehension _ logs) as [[|first others]|e]; done. }
  cbn [fst snd]. tauto.
Qed.

(** C5.  In any poll cycle of the waiter (any iteration value [i], any
    remaining iterations, any world): when the poll returns [logs] and
    the condition raises on none of them, the entries kept are the plain
    filter of [logs] by the condition, all of [logs] when the condition is
    absent; and if some entry is kept, the waiter returns the first kept
    entry, which is the first entry of [logs] that passes, in the world
    the poll left: no further poll, no sleep.  The same holds for the
    first cycle of [get_event_blocking] itself. *)
Theorem C5_first_match_returned self event_name from_block to_block filters condition
    wait timeout i rest w logs w1 :
  get_logs self event_name (Some from_block) (Some to_block) filters w = (Ok logs, w1) ->
  Forall (fun e => exists b, passes condition e = Ok b) logs ->
  let accepted := fun e => match passes condition e with
                           | Ok b => b
                           | Raise _ => false
                           end in
  comprehension (passes condition) logs = Ok (List.filter accepted logs)
  /\ (condition = None -> List.filter accepted logs = logs)
  /\ forall first others,
       List.filter accepted logs = first :: others ->
       poll_loop self event_name from_block to_block filters condition wait timeout
         (i :: rest) w = (Ok (Some first), w1)
       /\ (0 < wait -> 0 <= timeout ->
           get_event_blocking self event_name (Some from_block) (Some to_block) filters
             condition (Some wait) (Some timeout) w = (Ok (Some first), w1))
       /\ (exists before after,
             logs = before ++ first :: after
             /\ Forall (fun e => accepted e = false) before
             /\ accepted first = true)
       /\ count is_poll (trace w1) = S (count is_poll (trace w))
       /\ count is_sleep (trace w1) = count is_sleep (trace w).
Proof.
  intros Hlogs Htotal accepted.
  assert (comprehension (passes condition) logs = Ok (List.filter accepted logs)) as Hkept.
  { apply comprehension_total. eapply Forall_impl; [exact Htotal|].
    intros e [b Hb]. unfold accepted. by rewrite Hb. }
  split; [exact Hkept|]. split.
  - intros ->. clear. induction logs as [|e logs IH]; [done|]. cbn. by rewrite IH.
  - intros first others Hfirst.
    pose proof (get_logs_counts self event_name from_block to_block filters w) as Hcount.
    rewrite Hlogs in Hcount. cbv zeta in Hcount. cbn [snd] in Hcount.
    assert (forall j more,
              poll_loop self event_name from_block to_block filters condition wait timeout
                (j :: more) w = (Ok (Some first), w1)) as Hloop.
    { intros j more. by rewrite poll_loop_cons, Hlogs, Hkept, Hfirst. }
    split; [apply Hloop|]. split; [|split; [by eapply filter_head_first|exact Hcount]].
    intros Hwait Htimeout. unfold get_event_blocking, bindM at 1, lift at 1.
    change (default DEFAULT_TIMEOUT (Some timeout)) with timeout.
    change (default DEFAULT_RETRY_INTERVAL (Some wait)) with wait.
    change (default (PInt 0) (Some from_block)) with from_block.
    change (default (PStr "pending") (Some to_block)) with to_block.
    destruct (py_range_first timeout wait) as (more & -> & _); [done..|]. apply Hloop.
Qed.

(* --------------------------------------------------------------------- *)
(** *** The settle timeout *)
(* --------------------------------------------------------------------- *)

(** C6.  [get_settle_timeout] performs exactly one read of the channel
    info and nothing else.  When the read raises BadFunctionCallOutput
    (the channel does not exist) it returns [None]; any other exception
    of the read propagates unchanged; when the read returns a tuple, the
    result is the element at index 3 of the tuple (an IndexError if the
    tuple is shorter). *)
Theorem C6_settle_timeout self sender receiver open_block_number w :
  let answer := call_getChannelInfo (address self) sender receiver open_block_number
                  (chain w) in
  let run := get_settle_timeout self sender receiver open_block_number w in
  snd run = World (snd answer)
              (trace w ++ [Rpc_call_getChannelInfo (address self) sender receiver
                             open_block_number])
  /\ (fst answer = Raise BadFunctionCallOutput -> fst run = Ok PNone)
  /\ (forall e, fst answer = Raise e -> e <> BadFunctionCallOutput -> fst run = Raise e)
  /\ (forall channel_info, fst answer = Ok channel_info ->
        fst run = subscript channel_info 3
        /\ forall v, nth_error channel_info 3 = Some v -> fst run = Ok v).
Proof.
  intros answer run. subst run.
  unfold get_settle_timeout, try_getChannelInfo, try_except_BadFunctionCallOutput,
    bindM, perform, ret, lift.
  fold answer. destruct answer as [[channel_info|e] n]; cbn -[subscript nth_error].
  - split; [done|]. split; [done|]. split; [done|].
    intros ? [= <-]. split; [done|]. intros v Hv. unfold subscript. by rewrite Hv.
  - destruct e; cbn; (split; [done|]); (split; [done|]); (split; [|done]);
      intros e' [= <-] Hne; done.
Qed.

(* --------------------------------------------------------------------- *)
(** *** Building a transaction *)
(* --------------------------------------------------------------------- *)

(** A successful [signed_transaction]: one fetch of the transaction count
    and a transaction built from it and from the proxy's fields. *)
Lemma signed_transaction_ok self func_name args nonce_offset w signed w' :
  signed_transaction self func_name args nonce_offset w = (Ok signed, w') ->
  exists count,
    fst (getTransactionCount (caller_address self) (chain w)) = Ok count
    /\ tx_nonce signed = count + default 0 nonce_offset
    /\ tx_gasprice signed = gas_price self
    /\ tx_startgas signed = gas_limit self
    /\ tx_to signed = address self
    /\ tx_value signed = 0
    /\ trace w' = trace w ++ [Rpc_getTransactionCount (caller_address self)].
Proof.
  unfold signed_transaction, bindM, perform, lift, Transaction_sign, bindR.
  destruct (getTransactionCount _ _) as [[count|e] n]; cbn -[Z.add]; [|done].
  destruct (prepare_transaction _ _ _ _) as [prepared|e]; cbn -[Z.add]; [|done].
  destruct (getitem prepared "data") as [data|e]; cbn -[Z.add]; [|done].
  destruct (decode_hex data) as [bytes|e]; cbn -[Z.add]; [|done].
  destruct (ecsign _ _) as [[[v r] s0]|e]; cbn -[Z.add]; [|done].
  intros [= <- <-]. exists count. by repeat split.
Qed.

(** A successful [signed_transaction] in full: the call data is what the
    contract prepared, decoded; the signature is [ecsign] of the unsigned
    transaction under the proxy's key; the result is that transaction
    with the signature filled in. *)
Lemma signed_transaction_signature self func_name args nonce_offset w signed w' :
  signed_transaction self func_name args nonce_offset w = (Ok signed, w') ->
  exists count prepared hexdata data v r s,
    fst (getTransactionCount (caller_address self) (chain w)) = Ok count
    /\ prepare_transaction (abi self) (address self) func_name args = Ok prepared
    /\ prepared !! "data" = Some hexdata
    /\ decode_hex hexdata = Ok data
    /\ ecsign (Transaction_new (count + default 0 nonce_offset) (gas_price self)
                 (gas_limit self) (address self) 0 data) (privkey self) = Ok (v, r, s)
    /\ signed = {| tx_nonce := count + default 0 nonce_offset;
                   tx_gasprice := gas_price self;
                   tx_startgas := gas_limit self;
                   tx_to := address self;
                   tx_value := 0;
                   tx_data := data;
                   tx_v := v; tx_r := r; tx_s := s |}.
Proof.
  unfold signed_transaction, bindM, perform, lift, Transaction_sign, bindR, getitem.
  destruct (getTransactionCount _ _) as [[count|e] n]; cbn -[Z.add]; [|done].
  destruct (prepare_transaction _ _ _ _) as [prepared|e]; cbn -[Z.add]; [|done].
  destruct (prepared !! "data") as [hexdata|] eqn:Hdata; cbn -[Z.add]; [|done].
  destruct (decode_hex hexdata) as [data|e] eqn:Hdecode; cbn -[Z.add]; [|done].
  destruct (ecsign _ _) as [[[v r] s0]|e] eqn:Hsign; cbn -[Z.add]; [|done].
  intros [= <- <-]. exists count, prepared, hexdata, data, v, r, s0.
  by repeat split.
Qed.

(** C4.  When [create_transaction] with [nonce_offset = k] returns, what
    it returns is the hex of the serialised signed transaction whose nonce
    is the transaction count fetched in this call plus k, whose gas price
    and gas limit are the proxy's, whose recipient is the contract address
    and whose value is 0; the count was fetched exactly once.  Its call
    data is the decoded ['data'] of what the contract prepared for the
    function name and arguments, and its signature [v, r, s] is the one
    [ecsign] gives for the unsigned transaction of those six fields under
    the proxy's private key.  A call in the same world with another offset
    yields another nonce. *)
Theorem C4_transaction_fields self func_name args (k : Z) w hex w' :
  create_transaction self func_name args (Some k) w = (Ok hex, w') ->
  exists count signed,
    fst (getTransactionCount (caller_address self) (chain w)) = Ok count
    /\ signed_transaction self func_name args (Some k) w = (Ok signed, w')
    /\ hex = toHex (rlp_encode signed)
    /\ tx_nonce signed = count + k
    /\ tx_gasprice signed = gas_price self
    /\ tx_startgas signed = gas_limit self
    /\ tx_to signed = address self
    /\ tx_value signed = 0
    /\ trace w' = trace w ++ [Rpc_getTransactionCount (caller_address self)]
    /\ (forall k2 signed2 w2,
         k2 <> k ->
         signed_transaction self func_name args (Some k2) w = (Ok signed2, w2) ->
         tx_nonce signed2 <> tx_nonce signed)
    /\ exists prepared hexdata data v r s,
         prepare_transaction (abi self) (address self) func_name args = Ok prepared
         /\ prepared !! "data" = Some hexdata
         /\ decode_hex hexdata = Ok data
         /\ tx_data signed = data
         /\ ecsign (Transaction_new (count + k) (gas_price self) (gas_limit self)
                      (address self) 0 data) (privkey self) = Ok (v, r, s)
         /\ tx_v signed = v /\ tx_r signed = r /\ tx_s signed = s
         /\ Transaction_sign
              (Transaction_new (count + k) (gas_price self) (gas_limit self)
                 (address self) 0 data) (privkey self) = Ok signed.
Proof.
  unfold create_transaction, bindM at 1, ret.
  destruct (signed_transaction self func_name args (Some k) w) as [[signed|e] w1] eqn:Hs;
    [|done].
  intros [= <- <-].
  destruct (signed_transaction_ok _ _ _ _ _ _ _ Hs)
    as (count & Hcount & Hnonce & Hgp & Hgl & Hto & Hval & Htrace).
  exists count, signed. repeat (split; [done|]).
  split.
  - intros k2 signed2 w2 Hne Hs2.
    destruct (signed_transaction_ok _ _ _ _ _ _ _ Hs2) as (count2 & Hcount2 & Hnonce2 & _).
    rewrite Hcount in Hcount2. injection Hcount2 as <-.
    rewrite Hnonce, Hnonce2. cbv [default from_option id]. lia.
  - destruct (signed_transaction_signature _ _ _ _ _ _ _ Hs)
      as (count' & prepared & hexdata & data & v & r & s0
          & Hcount' & Hprep & Hdata & Hdecode & Hsign & Hsigned).
    rewrite Hcount in Hcount'. injection Hcount' as <-.
    change (default 0 (Some k)) with k in Hsign, Hsigned.
    exists prepared, hexdata, data, v, r, s0.
    split; [exact Hprep|]. split; [exact Hdata|]. split; [exact Hdecode|].
    split; [by rewrite Hsigned|]. split; [exact Hsign|].
    split; [by rewrite Hsigned|]. split; [by rewrite Hsigned|].
    split; [by rewrite Hsigned|].
    unfold Transaction_sign, bindR. rewrite Hsign. cbn -[Z.add]. by rewrite Hsigned.
Qed.

(* --------------------------------------------------------------------- *)
(** *** Log queries *)
(* --------------------------------------------------------------------- *)

Lemma for_each_Forall2 {A B} (f : A -> result B) (l : list A) (l' : list B) :
  for_each f l = Ok l' -> Forall2 (fun x y => f x = Ok y) l l'.
Proof.
  revert l'. induction l as [|x l IH]; cbn; intros l'.
  - intros [= <-]. constructor.
  - destruct (f x) as [y|] eqn:Hx; cbn; [|done].
    destruct (for_each f l) as [ys|]; cbn; [|done].
    intros [= <-]. constructor; [done|]. by apply IH.
Qed.

(** The result of [get_logs] is a function of its arguments and of what
    the node answers to the one request. *)
Lemma get_logs_result self event_name from_block to_block filters w :
  fst (get_logs self event_name from_block to_block filters w) =
    let? event_abi := resolve_event (abi self) event_name in
    let? _ := assert_nonempty event_abi in
    let? constructed :=
      construct_event_filter_params event_abi (filters_or_empty filters)
        {| fromBlock := default (PInt 0) from_block;
           toBlock := default (PStr "latest") to_block;
           kw_address := address self |} in
    let? formatted := input_filter_params_formatter (snd constructed) in
    let? response := fst (request_blocking "eth_getLogs" [formatted] (chain w)) in
    let? logs := log_array_formatter response in
    for_each (attach_args event_abi) logs.
Proof.
  unfold get_logs, bindM, emit, lift, perform.
  destruct (resolve_event _ _) as [event_abi|]; cbn; [|done].
  destruct (assert_nonempty _); cbn; [|done].
  destruct (construct_event_filter_params _ _ _) as [constructed|]; cbn; [|done].
  destruct (input_filter_params_formatter _) as [formatted|]; cbn; [|done].
  destruct (request_blocking _ _ _) as [[response0|] n]; cbn; [|done].
  destruct (log_array_formatter _); cbn; done.
Qed.

(** C8.  Two calls of [get_logs] with the same event name, block range
    and filters, in two worlds whose node gives the same answer to the
    [eth_getLogs] request, have the same result; when that result is a
    list of entries, it is the list of raw logs of the answer, in the
    answer's order, each with its [args] key set to the [args] that
    [get_event_data] decodes from it with the resolved event ABI. *)
Theorem C8_get_logs_deterministic self event_name from_block to_block filters w1 w2 :
  (forall params,
     fst (request_blocking "eth_getLogs" params (chain w1))
     = fst (request_blocking "eth_getLogs" params (chain w2))) ->
  fst (get_logs self event_name from_block to_block filters w1)
  = fst (get_logs self event_name from_block to_block filters w2)
  /\ forall logs,
       fst (get_logs self event_name from_block to_block filters w1) = Ok logs ->
       exists event_abi params response0 raw_logs,
         resolve_event (abi self) event_name = Ok event_abi
         /\ fst (request_blocking "eth_getLogs" params (chain w1)) = Ok response0
         /\ log_array_formatter response0 = Ok raw_logs
         /\ Forall2 (fun raw log =>
                       exists data args,
                         get_event_data event_abi raw = Ok data
                         /\ data !! "args" = Some args
                         /\ log = <["args" := args]> raw) raw_logs logs.
Proof.
  intros Hsame. rewrite !get_logs_result. split.
  - destruct (resolve_event _ _) as [event_abi|]; cbn; [|done].
    destruct (assert_nonempty _); cbn; [|done].
    destruct (construct_event_filter_params _ _ _) as [constructed|]; cbn; [|done].
    destruct (input_filter_params_formatter _) as [formatted|]; cbn; [|done].
    by rewrite Hsame.
  - intros logs.
    destruct (resolve_event _ _) as [event_abi|]; cbn; [|done].
    destruct (assert_nonempty _); cbn; [|done].
    destruct (construct_event_filter_params _ _ _) as [constructed|]; cbn; [|done].
    destruct (input_filter_params_formatter _) as [formatted|]; cbn; [|done].
    destruct (fst (request_blocking _ _ _)) as [response0|] eqn:Hresp; cbn; [|done].
    destruct (log_array_formatter _) as [raw_logs|] eqn:Hraw; cbn; [|done].
    intros Hattach. exists event_abi, [formatted], response0, raw_logs.
    repeat (split; [done|]).
    apply for_each_Forall2 in Hattach.
    eapply Forall2_impl; [exact Hattach|]. intros raw log. unfold attach_args, getitem.
    destruct (get_event_data event_abi raw) as [data|]; cbn; [|done].
    destruct (data !! "args") as [args|] eqn:Hargs; cbn; [|done].
    intros [= <-]. by exists data, args.
Qed.

(** C9.  [get_channel_topup_logs] and [get_channel_topped_up_logs] are the
    same function: both are [get_logs] for the event ChannelToppedUp with
    the arguments passed on as they are. *)
Theorem C9_topup_logs_alias self from_block to_block filters w :
  get_channel_topup_logs = get_channel_topped_up_logs
  /\ get_channel_topup_logs self from_block to_block filters w
     = get_channel_topped_up_logs self from_block to_block filters w
  /\ get_channel_topped_up_logs self from_block to_block filters w
     = get_logs self "ChannelToppedUp" (Some (default (PInt 0) from_block))
         (Some (default (PStr "latest") to_block)) filters w.
Proof. by repeat split. Qed.

(* --------------------------------------------------------------------- *)
(** *** The blocking waits of the channel proxy *)
(* --------------------------------------------------------------------- *)

Lemma get_event_blocking_trace self event_name from_block to_block filters condition
    wait timeout w :
  exists added,
    trace (snd (get_event_blocking self event_name from_block to_block filters condition
                  wait timeout w)) = trace w ++ added
    /\ Forall (fun e => is_poll e = true ->
                        e = Enter_get_logs event_name (default (PInt 0) from_block)
                              (default (PStr "pending") to_block) filters) added.
Proof.
  unfold get_event_blocking, bindM at 1, lift at 1.
  destruct (py_range _ _ _) as [iterations|e].
  - apply poll_loop_trace.
  - exists []. by rewrite app_nil_r.
Qed.

Lemma get_event_blocking_returns_passing self event_name from_block to_block filters
    condition wait timeout w event w' :
  get_event_blocking self event_name from_block to_block filters condition wait timeout w
    = (Ok (Some event), w') ->
  passes condition event = Ok true.
Proof.
  unfold get_event_blocking, bindM at 1, lift at 1.
  destruct (py_range _ _ _) as [iterations|e]; [|done].
  apply poll_loop_returns_passing.
Qed.

(** The condition of the topped-up wait holds exactly when both decoded
    amounts are there and equal the expected ones. *)
Lemma topped_up_condition_true deposit topup (event : log_entry) :
  passes (Some (topped_up_condition deposit topup)) event = Ok true <->
  exists d a,
    event_arg event "_deposit" = Ok d /\ py_eq d deposit = true
    /\ event_arg event "_added_deposit" = Ok a /\ py_eq a topup = true.
Proof.
  unfold passes, topped_up_condition, bindR.
  destruct (event_arg event "_deposit") as [d|]; [|split; [done|by intros (? & ? & ? & _)]].
  destruct (py_eq d deposit) eqn:Hd.
  - destruct (event_arg event "_added_deposit") as [a|];
      [|split; [done|by intros (? & ? & _ & _ & ? & _)]].
    cbn. split.
    + intros [= Ha]. by exists d, a.
    + intros (d' & a' & [= <-] & _ & [= <-] & ->). done.
  - cbn. split; [done|]. intros (d' & a' & [= <-] & Hd' & _). congruence.
Qed.

(** An entry whose added deposit differs does not pass, whatever its
    deposit. *)
Lemma topped_up_condition_false deposit topup (event : log_entry) d a :
  event_arg event "_deposit" = Ok d ->
  event_arg event "_added_deposit" = Ok a ->
  py_eq a topup = false ->
  passes (Some (topped_up_condition deposit topup)) event = Ok false.
Proof.
  intros Hd Ha Hne. unfold passes, topped_up_condition, bindR.
  rewrite Hd. destruct (py_eq d deposit); [|done]. by rewrite Ha, Hne.
Qed.

(** C7.  [get_channel_topped_up_event_blocking] is the blocking wait on
    the event ChannelToppedUp with the filters [_sender], [_receiver] and
    [_open_block_number], and with a condition that an entry passes
    exactly when its decoded [_deposit] equals [deposit] and its decoded
    [_added_deposit] equals [topup].  Every poll it makes is for that
    event with those filters; an entry it returns satisfies both
    equalities; and when every poll yields only entries whose added
    deposit differs from [topup], it returns [None]. *)
Theorem C7_topped_up_wait self sender receiver opening_block deposit topup
    from_block to_block wait timeout w :
  let filters : gmap string pyval :=
    {[ "_sender" := sender; "_receiver" := receiver;
       "_open_block_number" := opening_block ]} in
  let fb := default (PInt 0) from_block in
  let tb := default (PStr "pending") to_block in
  let wt := default DEFAULT_RETRY_INTERVAL wait in
  let T := default DEFAULT_TIMEOUT timeout in
  let run := get_channel_topped_up_event_blocking self sender receiver opening_block
               deposit topup from_block to_block wait timeout w in
  run = get_event_blocking self "ChannelToppedUp" (Some fb) (Some tb) (Some filters)
          (Some (topped_up_condition deposit topup)) (Some wt) (Some T) w
  /\ (forall event,
        passes (Some (topped_up_condition deposit topup)) event = Ok true <->
        exists d a,
          event_arg event "_deposit" = Ok d /\ py_eq d deposit = true
          /\ event_arg event "_added_deposit" = Ok a /\ py_eq a topup = true)
  /\ (exists added,
        trace (snd run) = trace w ++ added
        /\ Forall (fun e => is_poll e = true ->
                            e = Enter_get_logs "ChannelToppedUp" fb tb (Some filters)) added)
  /\ (forall event,
        fst run = Ok (Some event) ->
        exists d a,
          event_arg event "_deposit" = Ok d /\ py_eq d deposit = true
          /\ event_arg event "_added_deposit" = Ok a /\ py_eq a topup = true)
  /\ (forall Inv : node -> Prop,
        0 < wt -> 0 <= T ->
        Inv (chain w) ->
        (forall n, Inv n -> Inv (gevent_sleep wt n)) ->
        (forall w0, Inv (chain w0) ->
           exists logs w1,
             get_logs self "ChannelToppedUp" (Some fb) (Some tb) (Some filters) w0
               = (Ok logs, w1)
             /\ Inv (chain w1)
             /\ Forall (fun event =>
                          exists d a,
                            event_arg event "_deposit" = Ok d
                            /\ event_arg event "_added_deposit" = Ok a
                            /\ py_eq a topup = false) logs) ->
        fst run = Ok None).
Proof.
  intros filters fb tb wt T run.
  split; [reflexivity|]. split; [apply topped_up_condition_true|]. split; [|split].
  - apply (get_event_blocking_trace self "ChannelToppedUp" (Some fb) (Some tb)).
  - intros event Hrun. apply topped_up_condition_true.
    destruct run as [r w'] eqn:Hr. cbn in Hrun. subst r.
    by eapply get_event_blocking_returns_passing.
  - intros Inv Hwt HT Hw Hsleep Hpoll.
    destruct (get_event_blocking_exhausts self "ChannelToppedUp" (Some fb) (Some tb)
                (Some filters) (Some (topped_up_condition deposit topup))
                (Some wt) (Some T) Inv w HT Hwt Hw Hsleep) as (w' & Hrun & _).
    + intros w0 Hw0. destruct (Hpoll w0 Hw0) as (logs & w1 & Hlogs & Hw1 & Hdiff).
      exists logs, w1. split; [exact Hlogs|]. split; [exact Hw1|].
      apply comprehension_none. eapply Forall_impl; [exact Hdiff|].
      intros event (d & a & Hd & Ha & Hne). by eapply topped_up_condition_false.
    + subst run. unfold get_channel_topped_up_event_blocking.
      fold filters fb tb wt T. by rewrite Hrun.
Qed.

(* --------------------------------------------------------------------- *)
(** *** A poll whose filter can be built *)
(* --------------------------------------------------------------------- *)

Lemma resolve_event_nonempty (abi : list abi_entry) event_name event_abi :
  resolve_event abi event_name = Ok event_abi -> assert_nonempty event_abi = Ok tt.
Proof.
  unfold resolve_event, bindR.
  destruct (comprehension _ abi) as [[|first others]|] eqn:Hc; [done| |done].
  intros [= <-]. apply comprehension_kept in Hc.
  inversion Hc as [|? ? [Hfirst _]]. by eapply is_event_named_nonempty.
Qed.

(** Once the event is resolved and the filter built, [get_logs] sends its
    one request and decodes the answer. *)
Lemma get_logs_run self event_name from_block to_block filters w event_abi
    constructed formatted :
  resolve_event (abi self) event_name = Ok event_abi ->
  construct_event_filter_params event_abi (filters_or_empty filters)
    {| fromBlock := default (PInt 0) from_block;
       toBlock := default (PStr "latest") to_block;
       kw_address := address self |} = Ok constructed ->
  input_filter_params_formatter (snd constructed) = Ok formatted ->
  get_logs self event_name from_block to_block filters w =
    (let? response0 := fst (request_blocking "eth_getLogs" [formatted] (chain w)) in
     let? logs := log_array_formatter response0 in
     for_each (attach_args event_abi) logs,
     World (snd (request_blocking "eth_getLogs" [formatted] (chain w)))
       (trace w ++ [Enter_get_logs event_name (default (PInt 0) from_block)
                      (default (PStr "latest") to_block) filters;
                    Rpc_request "eth_getLogs" [formatted]])).
Proof.
  intros Hres Hc Hf. unfold get_logs, bindM, emit, lift, perform.
  rewrite Hres. cbn. rewrite (resolve_event_nonempty _ _ _ Hres). cbn.
  rewrite Hc. cbn. rewrite Hf. cbn.
  destruct (request_blocking _ _ _) as [[response0|e] n]; cbn.
  - destruct (log_array_formatter response0); cbn; by rewrite <- app_assoc.
  - by rewrite <- app_assoc.
Qed.

(** C10.  Left out, the to-block bound is ['pending'] for
    [get_event_blocking] and for the four blocking waits of the channel
    proxy, and ['latest'] for [get_logs] and the five log queries of the
    channel proxy.  Every poll of a blocking wait, the generic one and
    each of the four channel waits, hands to [get_logs] the to-block value
    the wait was given (the default when it was given none); each channel
    wait is the generic wait on its own arguments.  [get_logs] puts the
    to-block value it was given into the filter it builds its request
    from, and each log query is [get_logs] on the to-block value it was
    given. *)
Theorem C10_default_to_block self event_name sender receiver opening_block deposit topup
    from_block filters condition wait timeout w :
  get_event_blocking self event_name from_block None filters condition wait timeout w
  = get_event_blocking self event_name from_block (Some (PStr "pending")) filters
      condition wait timeout w
  /\ get_channel_created_event_blocking self sender receiver from_block None wait timeout w
     = get_channel_created_event_blocking self sender receiver from_block
         (Some (PStr "pending")) wait timeout w
  /\ get_channel_topped_up_event_blocking self sender receiver opening_block deposit topup
       from_block None wait timeout w
     = get_channel_topped_up_event_blocking self sender receiver opening_block deposit
         topup from_block (Some (PStr "pending")) wait timeout w
  /\ get_channel_close_requested_event_blocking self sender receiver opening_block
       from_block None wait timeout w
     = get_channel_close_requested_event_blocking self sender receiver opening_block
         from_block (Some (PStr "pending")) wait timeout w
  /\ get_channel_settle_event_blocking self sender receiver opening_block
       from_block None wait timeout w
     = get_channel_settle_event_blocking self sender receiver opening_block
         from_block (Some (PStr "pending")) wait timeout w
  /\ get_logs self event_name from_block None filters w
     = get_logs self event_name from_block (Some (PStr "latest")) filters w
  /\ get_channel_created_logs self from_block None filters w
     = get_channel_created_logs self from_block (Some (PStr "latest")) filters w
  /\ get_channel_topped_up_logs self from_block None filters w
     = get_channel_topped_up_logs self from_block (Some (PStr "latest")) filters w
  /\ get_channel_close_requested_logs self from_block None filters w
     = get_channel_close_requested_logs self from_block (Some (PStr "latest")) filters w
  /\ get_channel_settled_logs self from_block None filters w
     = get_channel_settled_logs self from_block (Some (PStr "latest")) filters w
  /\ get_channel_topup_logs self from_block None filters w
     = get_channel_topup_logs self from_block (Some (PStr "latest")) filters w
  /\ (forall to_block,
       exists added,
         trace (snd (get_event_blocking self event_name from_block to_block filters
                       condition wait timeout w)) = trace w ++ added
         /\ Forall (fun e => is_poll e = true ->
                             e = Enter_get_logs event_name (default (PInt 0) from_block)
                                   (default (PStr "pending") to_block) filters) added)
  /\ (forall to_block,
       let fb := default (PInt 0) from_block in
       let tb := default (PStr "pending") to_block in
       let wt := default DEFAULT_RETRY_INTERVAL wait in
       let T := default DEFAULT_TIMEOUT timeout in
       let pair : gmap string pyval :=
         {[ "_sender" := sender; "_receiver" := receiver ]} in
       let triple : gmap string pyval :=
         {[ "_sender" := sender; "_receiver" := receiver;
            "_open_block_number" := opening_block ]} in
       (get_channel_created_event_blocking self sender receiver from_block to_block
          wait timeout w
        = get_event_blocking self "ChannelCreated" (Some fb) (Some tb) (Some pair) None
            (Some wt) (Some T) w
        /\ exists added,
             trace (snd (get_channel_created_event_blocking self sender receiver
                           from_block to_block wait timeout w)) = trace w ++ added
             /\ Forall (fun e => is_poll e = true ->
                                 e = Enter_get_logs "ChannelCreated" fb tb (Some pair))
                  added)
       /\ (get_channel_topped_up_event_blocking self sender receiver opening_block
             deposit topup from_block to_block wait timeout w
           = get_event_blocking self "ChannelToppedUp" (Some fb) (Some tb) (Some triple)
               (Some (topped_up_condition deposit topup)) (Some wt) (Some T) w
           /\ exists added,
                trace (snd (get_channel_topped_up_event_blocking self sender receiver
                              opening_block deposit topup from_block to_block
                              wait timeout w)) = trace w ++ added
                /\ Forall (fun e => is_poll e = true ->
                                    e = Enter_get_logs "ChannelToppedUp" fb tb
                                          (Some triple)) added)
       /\ (get_channel_close_requested_event_blocking self sender receiver opening_block
             from_block to_block wait timeout w
           = get_event_blocking self "ChannelCloseRequested" (Some fb) (Some tb)
               (Some triple) None (Some wt) (Some T) w
           /\ exists added,
                trace (snd (get_channel_close_requested_event_blocking self sender
                              receiver opening_block from_block to_block
                              wait timeout w)) = trace w ++ added
                /\ Forall (fun e => is_poll e = true ->
                                    e = Enter_get_logs "ChannelCloseRequested" fb tb
                                          (Some triple)) added)
       /\ (get_channel_settle_event_blocking self sender receiver opening_block
             from_block to_block wait timeout w
           = get_event_blocking self "ChannelSettled" (Some fb) (Some tb) (Some triple)
               None (Some wt) (Some T) w
           /\ exists added,
                trace (snd (get_channel_settle_event_blocking self sender receiver
                              opening_block from_block to_block wait timeout w))
                = trace w ++ added
                /\ Forall (fun e => is_poll e = true ->
                                    e = Enter_get_logs "ChannelSettled" fb tb
                                          (Some triple)) added))
  /\ (forall to_block,
       let fb := default (PInt 0) from_block in
       let tb := default (PStr "latest") to_block in
       (exists requests,
          trace (snd (get_logs self event_name from_block to_block filters w))
          = trace w ++ Enter_get_logs event_name fb tb filters :: requests)
       /\ (forall event_abi constructed formatted,
             resolve_event (abi self) event_name = Ok event_abi ->
             construct_event_filter_params event_abi (filters_or_empty filters)
               {| fromBlock := fb; toBlock := tb; kw_address := address self |}
             = Ok constructed ->
             input_filter_params_formatter (snd constructed) = Ok formatted ->
             trace (snd (get_logs self event_name from_block to_block filters w))
             = trace w ++ [Enter_get_logs event_name fb tb filters;
                           Rpc_request "eth_getLogs" [formatted]])
       /\ get_channel_created_logs self from_block to_block filters w
          = get_logs self "ChannelCreated" (Some fb) (Some tb) filters w
       /\ get_channel_topped_up_logs self from_block to_block filters w
          = get_logs self "ChannelToppedUp" (Some fb) (Some tb) filters w
       /\ get_channel_close_requested_logs self from_block to_block filters w
          = get_logs self "ChannelCloseRequested" (Some fb) (Some tb) filters w
       /\ get_channel_settled_logs self from_block to_block filters w
          = get_logs self "ChannelSettled" (Some fb) (Some tb) filters w
       /\ get_channel_topup_logs self from_block to_block filters w
          = get_logs self "ChannelToppedUp" (Some fb) (Some tb) filters w).
Proof.
  repeat (split; [reflexivity|]).
  split; [intros to_block; apply get_event_blocking_trace|].
  split.
  - intros to_block fb tb wt T pair triple.
    repeat split; try reflexivity.
    + exact (get_event_blocking_trace self "ChannelCreated" (Some fb) (Some tb)
               (Some pair) None (Some wt) (Some T) w).
    + exact (get_event_blocking_trace self "ChannelToppedUp" (Some fb) (Some tb)
               (Some triple) (Some (topped_up_condition deposit topup))
               (Some wt) (Some T) w).
    + exact (get_event_blocking_trace self "ChannelCloseRequested" (Some fb) (Some tb)
               (Some triple) None (Some wt) (Some T) w).
    + exact (get_event_blocking_trace self "ChannelSettled" (Some fb) (Some tb)
               (Some triple) None (Some wt) (Some T) w).
  - intros to_block fb tb. split; [|split; [|by repeat split]].
    + destruct (get_logs_trace self event_name fb tb filters w) as (requests & Ht & _).
      exists requests. exact Ht.
    + intros event_abi constructed formatted Hres Hc Hf.
      by rewrite (get_logs_run self event_name from_block to_block filters w
                    event_abi constructed formatted Hres Hc Hf).
Qed.

End ProxyFacts.

(** A property of all elements, from a boolean test run over the list. *)
Lemma Forall_by_check {A} (P : A -> Prop) (check : A -> bool) (l : list A) :
  (forall x, check x = true -> P x) ->
  forallb check l = true ->
  Forall P l.
Proof.
  intros Hsound. induction l as [|x l IH]; cbn; [constructor|].
  intros [Hx Hl]%andb_true_iff. constructor; [by apply Hsound|by apply IH].
Qed.

Lemma total_by_check {A} (p : A -> result bool) (l : list A) :
  forallb (fun x => match p x with Ok _ => true | Raise _ => false end) l = true ->
  Forall (fun x => exists b, p x = Ok b) l.
Proof.
  apply Forall_by_check. intros x. destruct (p x) as [b|]; [by exists b|done].
Qed.

(* ===================================================================== *)
(** ** The concrete node at work *)
(* ===================================================================== *)

(** On the concrete node a poll for a declared event always succeeds: it
    returns the decoded visible logs and leaves the node as it was. *)
Lemma Toy_get_logs self event_name from_block to_block filters
    (w : world Toy.node Toy.spec) event_abi :
  resolve_event (abi self) event_name = Ok event_abi ->
  get_logs self event_name (Some from_block) (Some to_block) filters w =
    (for_each (attach_args event_abi) (Toy.visible (chain w)),
     World (chain w)
       (trace w ++ [Enter_get_logs event_name from_block to_block filters;
                    Rpc_request "eth_getLogs"
                      [(filters_or_empty filters,
                        {| fromBlock := from_block; toBlock := to_block;
                           kw_address := address self |})]])).
Proof.
  intros Hres.
  exact (get_logs_run self event_name (Some from_block) (Some to_block) filters w
           event_abi _ _ Hres eq_refl eq_refl).
Qed.

(** Logs scheduled at time 0 are visible at any later time. *)
Lemma Toy_visible_from_start (n : Toy.node) :
  0 <= Toy.clock n ->
  Forall (fun p => fst p = 0) (Toy.scheduled n) ->
  Toy.visible n = map snd (Toy.scheduled n).
Proof.
  intros Hclock. unfold Toy.visible.
  induction 1 as [|[time log] rest Htime _ IH]; [done|].
  cbn in *. subst time.
  destruct (Z.leb_spec 0 (Toy.clock n)); [|lia]. cbn. by rewrite IH.
Qed.

(** [range] as CPython computes it, on the bounds the waiter can be
    given. *)
Example py_range_defaults :
  py_range 0 (20 + 3) 3 = Ok [0; 3; 6; 9; 12; 15; 18; 21].
Proof. reflexivity. Qed.

Example py_range_exact : py_range 0 (20 + 4) 4 = Ok [0; 4; 8; 12; 16; 20].
Proof. reflexivity. Qed.

Example py_range_zero_step : py_range 0 20 0 = Raise ValueError.
Proof. reflexivity. Qed.

Example py_range_negative_step :
  py_range 0 (20 + -3) (-3) = Ok [] /\ py_range 0 (-10 + -3) (-3) = Ok [0; -3; -6; -9; -12].
Proof. split; reflexivity. Qed.

(** A channel-created log that shows up at time 4 is found by the fifth
    poll of a wait with interval 1 and timeout 5, after four sleeps. *)
Example late_event_is_found :
  let run := get_channel_created_event_blocking Toy.proxy (PStr "0xA") (PStr "0xB")
               None None (Some 1) (Some 5) Toy.late in
  (exists event, fst run = Ok (Some event)
                 /\ event_arg event "_sender" = Ok (PStr "0xA")
                 /\ event_arg event "_receiver" = Ok (PStr "0xB"))
  /\ count is_poll (trace (snd run)) = 5%nat
  /\ count is_sleep (trace (snd run)) = 4%nat
  /\ Toy.clock (chain (snd run)) = 4.
Proof.
  intros run. split.
  - exists (match fst run with Ok (Some found) => found | _ => ∅ end).
    vm_compute. by repeat split.
  - vm_compute. by repeat split.
Qed.

(** C1 (as stated) fails.  With the defaults, timeout 20 and interval 3,
    on a node that never has a log, the waiter returns [None] after 8
    polls, not after floor(20/3) + 1 = 7. *)
Lemma C1_counterexample :
  let run := get_event_blocking Toy.proxy "ChannelCreated" None None None None
               (Some 3) (Some 20) Toy.quiet in
  fst run = Ok None
  /\ count is_poll (trace (snd run)) = 8%nat
  /\ count is_poll (trace (snd run)) <> Z.to_nat (20 / 3 + 1).
Proof. vm_compute. repeat split; discriminate. Qed.

Lemma C1_polls_until_timeout_witness :
  exists w',
    get_event_blocking Toy.proxy "ChannelCreated" None None None None (Some 3) (Some 20)
      Toy.quiet = (Ok None, w')
    /\ count is_poll (trace w') = (0 + 8)%nat
    /\ count is_sleep (trace w') = (0 + 7)%nat
    /\ (20 + 3 - 1) / 3 + 1 = 20 / 3 + 2.
Proof.
  apply (C1_polls_until_timeout Toy.proxy "ChannelCreated" None None None None
           (Some 3) (Some 20) (fun n => Toy.scheduled n = []) Toy.quiet).
  - discriminate.
  - reflexivity.
  - reflexivity.
  - intros n Hn. exact Hn.
  - intros w0 Hs. cbv [from_option id].
    rewrite (Toy_get_logs Toy.proxy "ChannelCreated" (PInt 0) (PStr "pending") None w0
               (Toy.event_entry "ChannelCreated")) by (vm_compute; reflexivity).
    unfold Toy.visible. rewrite Hs.
    eexists _, _. split; [reflexivity|]. split; [exact Hs|reflexivity].
Defined.

(** C2 (as stated) fails.  Over an ABI that declares the event
    ChannelCreated twice, [get_logs] does not raise: it sends its request
    to the node and returns the logs. *)
Lemma C2_counterexample :
  let run := get_logs Toy.ambiguous_proxy "ChannelCreated" None None None Toy.quiet in
  length (List.filter (fun i => match is_event_named "ChannelCreated" i with
                                | Ok b => b
                                | Raise _ => false
                                end) (abi Toy.ambiguous_proxy)) = 2%nat
  /\ fst run = Ok []
  /\ count is_request (trace (snd run)) = 1%nat.
Proof. vm_compute. repeat split. Qed.

Lemma C2_event_resolution_witness :
  get_logs Toy.eventless_proxy "ChannelCreated" None None None Toy.quiet
  = (Raise IndexError,
     World (chain Toy.quiet)
       (trace Toy.quiet ++ [Enter_get_logs "ChannelCreated" (PInt 0) (PStr "latest") None]))
  /\ resolve_event (abi Toy.ambiguous_proxy) "ChannelCreated"
     = Ok (<["anonymous" := PBool false]> (Toy.event_entry "ChannelCreated"))
  /\ count is_request
       (trace (snd (get_logs Toy.ambiguous_proxy "ChannelCreated" None None None Toy.quiet)))
     = 1%nat.
Proof.
  split.
  - apply (C2_event_resolution Toy.eventless_proxy "ChannelCreated" None None None Toy.quiet).
    + apply total_by_check. vm_compute. reflexivity.
    + vm_compute. reflexivity.
  - destruct (C2_event_resolution Toy.ambiguous_proxy "ChannelCreated" None None None
                Toy.quiet) as [_ Hsome];
      [apply total_by_check; vm_compute; reflexivity|].
    edestruct (Hsome (<["anonymous" := PBool false]> (Toy.event_entry "ChannelCreated"))
                 (Toy.event_entry "ChannelCreated" :: nil)) as [Hfirst Htrace].
    + vm_compute. reflexivity.
    + reflexivity.
    + reflexivity.
    + split; [exact Hfirst|]. rewrite Htrace. reflexivity.
Defined.

Lemma C3_zero_timeout_witness :
  0 < 3
  /\ (let polled := get_logs Toy.proxy "ChannelToppedUp" (Some (PInt 0))
                      (Some (PStr "pending")) None Toy.busy in
      let run := get_event_blocking Toy.proxy "ChannelToppedUp" None None None None
                   None (Some 0) Toy.busy in
      snd run = snd polled
      /\ fst run = (let? logs := fst polled in
                    let? matching_logs := comprehension (passes None) logs in
                    Ok (head matching_logs))
      /\ count is_poll (trace (snd run)) = S (count is_poll (trace Toy.busy))
      /\ count is_sleep (trace (snd run)) = count is_sleep (trace Toy.busy)).
Proof.
  split; [reflexivity|].
  apply (C3_zero_timeout Toy.proxy "ChannelToppedUp" None None None None None Toy.busy).
  reflexivity.
Defined.

Lemma C4_transaction_fields_witness :
  exists count signed,
    fst (getTransactionCount (caller_address Toy.proxy) (chain Toy.quiet)) = Ok count
    /\ signed_transaction Toy.proxy "createChannel" [PStr "0xB"; PInt 100] (Some 3) Toy.quiet
       = (Ok signed,
          World (chain Toy.quiet) [Rpc_getTransactionCount (caller_address Toy.proxy)])
    /\ "0xcreateChannel" = toHex (rlp_encode signed)
    /\ tx_nonce signed = count + 3
    /\ tx_gasprice signed = gas_price Toy.proxy
    /\ tx_startgas signed = gas_limit Toy.proxy
    /\ tx_to signed = address Toy.proxy
    /\ tx_value signed = 0
    /\ [Rpc_getTransactionCount (caller_address Toy.proxy)]
       = trace Toy.quiet ++ [Rpc_getTransactionCount (caller_address Toy.proxy)]
    /\ (forall k2 signed2 w2,
         k2 <> 3 ->
         signed_transaction Toy.proxy "createChannel" [PStr "0xB"; PInt 100] (Some k2)
           Toy.quiet = (Ok signed2, w2) ->
         tx_nonce signed2 <> tx_nonce signed)
    /\ exists prepared hexdata data v r s,
         prepare_transaction (abi Toy.proxy) (address Toy.proxy) "createChannel"
           [PStr "0xB"; PInt 100] = Ok prepared
         /\ prepared !! "data" = Some hexdata
         /\ decode_hex hexdata = Ok data
         /\ tx_data signed = data
         /\ ecsign (Transaction_new (count + 3) (gas_price Toy.proxy) (gas_limit Toy.proxy)
                      (address Toy.proxy) 0 data) (privkey Toy.proxy) = Ok (v, r, s)
         /\ tx_v signed = v /\ tx_r signed = r /\ tx_s signed = s
         /\ Transaction_sign
              (Transaction_new (count + 3) (gas_price Toy.proxy) (gas_limit Toy.proxy)
                 (address Toy.proxy) 0 data) (privkey Toy.proxy) = Ok signed.
Proof.
  apply (C4_transaction_fields Toy.proxy "createChannel" [PStr "0xB"; PInt 100] 3
           Toy.quiet "0xcreateChannel"
           (World (chain Toy.quiet) [Rpc_getTransactionCount (caller_address Toy.proxy)])).
  vm_compute. reflexivity.
Defined.

(** On the concrete node the signature is there: a call with offset 3 at
    count 7 signs nonce 10. *)
Example signed_transaction_on_the_node :
  exists signed w',
    signed_transaction Toy.proxy "createChannel" [PStr "0xB"; PInt 100] (Some 3) Toy.quiet
    = (Ok signed, w')
    /\ tx_nonce signed = 10 /\ tx_data signed = "createChannel"
    /\ (tx_v signed, tx_r signed, tx_s signed) = (27, 11, 1).
Proof. eexists _, _. split; [vm_compute; reflexivity|]. by repeat split. Qed.

Lemma C10_default_to_block_witness :
  exists added,
    trace (snd (get_channel_settle_event_blocking Toy.proxy (PStr "0xA") (PStr "0xB")
                  (PInt 10) None (Some (PInt 99)) (Some 2) (Some 5) Toy.quiet))
    = trace Toy.quiet ++ added
    /\ Forall (fun e => is_poll e = true ->
                        e = Enter_get_logs "ChannelSettled" (PInt 0) (PInt 99)
                              (Some {[ "_sender" := PStr "0xA"; "_receiver" := PStr "0xB";
                                       "_open_block_number" := PInt 10 ]})) added.
Proof.
  destruct (C10_default_to_block Toy.proxy "ChannelSettled" (PStr "0xA") (PStr "0xB")
              (PInt 10) (PInt 100) (PInt 50) None None None (Some 2) (Some 5) Toy.quiet)
    as (_ & _ & _ & _ & _ & _ & _ & _ & _ & _ & _ & _ & Hwaits & _).
  pose proof (Hwaits (Some (PInt 99))) as Hthere. cbv zeta in Hthere.
  destruct Hthere as (_ & _ & _ & _ & Hsettle). exact Hsettle.
Defined.

Lemma C5_first_match_returned_witness :
  let condition := Some (topped_up_condition (PInt 100) (PInt 50)) in
  let polled := get_logs Toy.proxy "ChannelToppedUp" (Some (PInt 0))
                  (Some (PStr "pending")) None Toy.busy in
  let logs := match fst polled with Ok found => found | Raise _ => [] end in
  let first := nth 1 logs ∅ in
  polled = (Ok logs, snd polled)
  /\ length logs = 2%nat
  /\ passes condition first = Ok true
  /\ poll_loop Toy.proxy "ChannelToppedUp" (PInt 0) (PStr "pending") None condition
       3 20 [0; 3] Toy.busy = (Ok (Some first), snd polled)
  /\ get_event_blocking Toy.proxy "ChannelToppedUp" (Some (PInt 0))
       (Some (PStr "pending")) None condition (Some 3) (Some 20) Toy.busy
     = (Ok (Some first), snd polled).
Proof.
  intros condition polled logs first.
  assert (polled = (Ok logs, snd polled)) as Hp by (vm_compute; reflexivity).
  destruct (C5_first_match_returned Toy.proxy "ChannelToppedUp" (PInt 0) (PStr "pending")
              None condition 3 20 0 [3] Toy.busy logs (snd polled) Hp)
    as (_ & _ & Hfirst); [apply total_by_check; vm_compute; reflexivity|].
  destruct (Hfirst first []) as (Hloop & Hwait & _); [vm_compute; reflexivity|].
  split; [exact Hp|]. split; [vm_compute; reflexivity|].
  split; [vm_compute; reflexivity|]. split; [exact Hloop|].
  apply Hwait; [reflexivity|discriminate].
Defined.

Lemma C6_settle_timeout_witness :
  fst (get_settle_timeout Toy.proxy (PStr "0xA") (PStr "0xB") (PInt 10) Toy.quiet)
  = Ok (PInt 30)
  /\ fst (get_settle_timeout Toy.proxy (PStr "0xD") (PStr "0xB") (PInt 10) Toy.quiet)
     = Ok PNone
  /\ fst (get_settle_timeout Toy.proxy PNone (PStr "0xB") (PInt 10) Toy.quiet)
     = Raise (ExternalError "connection refused")
  /\ count is_channel_read
       (trace (snd (get_settle_timeout Toy.proxy (PStr "0xA") (PStr "0xB") (PInt 10)
                      Toy.quiet))) = 1%nat.
Proof.
  split; [|split; [|split]].
  - eapply (C6_settle_timeout Toy.proxy (PStr "0xA") (PStr "0xB") (PInt 10) Toy.quiet);
      reflexivity.
  - apply (C6_settle_timeout Toy.proxy (PStr "0xD") (PStr "0xB") (PInt 10) Toy.quiet).
    reflexivity.
  - apply (C6_settle_timeout Toy.proxy PNone (PStr "0xB") (PInt 10) Toy.quiet);
      [reflexivity|discriminate].
  - rewrite (proj1 (C6_settle_timeout Toy.proxy (PStr "0xA") (PStr "0xB") (PInt 10)
                      Toy.quiet)).
    reflexivity.
Defined.

(** The decoded entries a poll of the busy node returns all carry both
    amounts, and none has an added deposit of 40. *)
Lemma Toy_busy_added_deposits (n : Toy.node) :
  Toy.scheduled n = Toy.scheduled (chain Toy.busy) ->
  0 <= Toy.clock n ->
  exists logs,
    for_each (attach_args (Toy.event_entry "ChannelToppedUp")) (Toy.visible n) = Ok logs
    /\ Forall (fun event =>
                 exists d a,
                   event_arg event "_deposit" = Ok d
                   /\ event_arg event "_added_deposit" = Ok a
                   /\ py_eq a (PInt 40) = false) logs.
Proof.
  intros Hs Hclock.
  rewrite Toy_visible_from_start; [|exact Hclock|rewrite Hs; by repeat constructor].
  rewrite Hs.
  exists (match for_each (attach_args (Toy.event_entry "ChannelToppedUp"))
                  (map snd (Toy.scheduled (chain Toy.busy))) with
          | Ok found => found
          | Raise _ => []
          end).
  split; [vm_compute; reflexivity|].
  apply (Forall_by_check _
           (fun event =>
              match event_arg event "_deposit", event_arg event "_added_deposit" with
              | Ok _, Ok a => negb (py_eq a (PInt 40))
              | _, _ => false
              end)); [|vm_compute; reflexivity].
  intros event.
  destruct (event_arg event "_deposit") as [d|]; [|done].
  destruct (event_arg event "_added_deposit") as [a|]; [|done].
  intros Hne%negb_true_iff. by exists d, a.
Qed.

Lemma C7_topped_up_wait_witness :
  fst (get_channel_topped_up_event_blocking Toy.proxy (PStr "0xA") (PStr "0xB") (PInt 3)
         (PInt 100) (PInt 40) None None (Some 2) (Some 5) Toy.busy) = Ok None
  /\ (let run := get_channel_topped_up_event_blocking Toy.proxy (PStr "0xA") (PStr "0xB")
                    (PInt 3) (PInt 100) (PInt 50) None None (Some 2) (Some 5) Toy.busy in
      let event := match fst run with Ok (Some found) => found | _ => ∅ end in
      fst run = Ok (Some event)
      /\ exists d a,
           event_arg event "_deposit" = Ok d /\ py_eq d (PInt 100) = true
           /\ event_arg event "_added_deposit" = Ok a /\ py_eq a (PInt 50) = true).
Proof.
  split.
  - destruct (C7_topped_up_wait Toy.proxy (PStr "0xA") (PStr "0xB") (PInt 3) (PInt 100)
                (PInt 40) None None (Some 2) (Some 5) Toy.busy)
      as (_ & _ & _ & _ & Htimeout).
    apply (Htimeout (fun n => Toy.scheduled n = Toy.scheduled (chain Toy.busy)
                              /\ 0 <= Toy.clock n)).
    + reflexivity.
    + discriminate.
    + split; [reflexivity|discriminate].
    + intros n [Hs Hclock]. split; [exact Hs|]. cbn. lia.
    + intros w0 [Hs Hclock]. cbv [from_option id].
      rewrite (Toy_get_logs Toy.proxy "ChannelToppedUp" _ _ _ w0
                 (Toy.event_entry "ChannelToppedUp")) by (vm_compute; reflexivity).
      destruct (Toy_busy_added_deposits (chain w0) Hs Hclock) as (logs & -> & Hlogs).
      eexists _, _. split; [reflexivity|]. split; [by split|exact Hlogs].
  - intros run event.
    assert (fst run = Ok (Some event)) as Hrun by (vm_compute; reflexivity).
    split; [exact Hrun|].
    destruct (C7_topped_up_wait Toy.proxy (PStr "0xA") (PStr "0xB") (PInt 3) (PInt 100)
                (PInt 50) None None (Some 2) (Some 5) Toy.busy)
      as (_ & _ & _ & Hreturned & _).
    exact (Hreturned event Hrun).
Defined.

Lemma C8_get_logs_deterministic_witness :
  let result1 := fst (get_logs Toy.proxy "ChannelToppedUp" None None None Toy.busy) in
  let logs := match result1 with Ok found => found | Raise _ => [] end in
  result1 = fst (get_logs Toy.proxy "ChannelToppedUp" None None None Toy.busy_later)
  /\ result1 = Ok logs
  /\ length logs = 2%nat
  /\ exists event_abi params response0 raw_logs,
       resolve_event (abi Toy.proxy) "ChannelToppedUp" = Ok event_abi
       /\ fst (request_blocking "eth_getLogs" params (chain Toy.busy)) = Ok response0
       /\ log_array_formatter response0 = Ok raw_logs
       /\ Forall2 (fun raw log =>
                     exists data args,
                       get_event_data event_abi raw = Ok data
                       /\ data !! "args" = Some args
                       /\ log = <["args" := args]> raw) raw_logs logs.
Proof.
  intros result1 logs.
  destruct (C8_get_logs_deterministic Toy.proxy "ChannelToppedUp" None None None
              Toy.busy Toy.busy_later) as [Hsame Hshape].
  - intros params. vm_compute. reflexivity.
  - assert (result1 = Ok logs) as Hr by (vm_compute; reflexivity).
    split; [exact Hsame|]. split; [exact Hr|]. split; [vm_compute; reflexivity|].
    exact (Hshape logs Hr).
Defined.

(* ===================================================================== *)
(** ** Further properties of the waiter *)
(* ===================================================================== *)

(** The values of [range(0, timeout + wait, wait)]: the multiples of the
    interval below the timeout, then one more, at or past the timeout. *)
Lemma py_range_shape (timeout wait : Z) :
  0 < wait -> 0 <= timeout ->
  let c := Z.to_nat ((timeout + wait - 1) / wait) in
  let before := map (fun k : nat => Z.of_nat k * wait) (seq 0 c) in
  py_range 0 (timeout + wait) wait = Ok (before ++ [Z.of_nat c * wait])
  /\ Forall (fun i => i < timeout) before
  /\ timeout <= Z.of_nat c * wait
  /\ length before = c.
Proof.
  intros Hwait Htimeout c before.
  assert (0 <= (timeout + wait - 1) / wait) as Hc by (apply Z.div_pos; lia).
  split; [|split; [|split]].
  - rewrite py_range_positive by lia.
    replace (timeout + wait + wait - 1) with ((timeout + wait - 1) + 1 * wait) by lia.
    rewrite Z.div_add by lia.
    replace (Z.to_nat ((timeout + wait - 1) / wait + 1)) with (S c) by (subst c; lia).
    by rewrite seq_S, map_app.
  - subst before. apply List.Forall_forall. intros i [k [<- Hk]]%in_map_iff.
    apply in_seq in Hk. apply Z.ltb_lt. rewrite below_stop_iff by lia.
    apply Z.ltb_lt. subst c. lia.
  - pose proof (Z.mul_succ_div_gt (timeout + wait - 1) wait Hwait).
    subst c. rewrite Z2Nat.id by lia. lia.
  - subst before. by rewrite length_map, length_seq.
Qed.

Section Waiter.

Context {node response rpc_params filter_spec : Type}.
Context `{!ChainTransport node response rpc_params}.
Context `{!AbiCodec response rpc_params filter_spec}.
Context `{!Signer}.

Implicit Types (w : world node rpc_params) (self : ContractProxy).

(** Over iteration values that are below the timeout except the last,
    every run of the loop, whatever its outcome, has made one poll more
    than it has slept, and at most one poll per iteration value. *)
Lemma poll_loop_polls_sleeps self event_name from_block to_block filters condition
    wait timeout before final :
  Forall (fun i => i < timeout) before ->
  timeout <= final ->
  forall w,
    let w' := snd (poll_loop self event_name from_block to_block filters condition
                     wait timeout (before ++ [final]) w) in
    exists sleeps,
      count is_poll (trace w') = (count is_poll (trace w) + S sleeps)%nat
      /\ count is_sleep (trace w') = (count is_sleep (trace w) + sleeps)%nat
      /\ (sleeps <= length before)%nat.
Proof.
  intros Hbefore Hfinal. induction Hbefore as [|i before Hi _ IH]; intros w; cbv zeta.
  - cbn [app]. rewrite poll_loop_cons.
    pose proof (get_logs_counts self event_name from_block to_block filters w) as Hcount.
    cbv zeta in Hcount. destruct Hcount as [Hp Hs].
    destruct (get_logs _ _ _ _ _ w) as [[logs|e] w1]; cbn [snd] in *;
      [|exists 0%nat; cbn; lia].
    destruct (comprehension _ logs) as [[|first others]|e]; cbn [snd];
      [|exists 0%nat; cbn; lia..].
    destruct (Z.ltb_spec final timeout); [lia|].
    exists 0%nat. cbn. lia.
  - cbn [app]. rewrite poll_loop_cons.
    pose proof (get_logs_counts self event_name from_block to_block filters w) as Hcount.
    cbv zeta in Hcount. destruct Hcount as [Hp Hs].
    destruct (get_logs _ _ _ _ _ w) as [[logs|e] w1]; cbn [snd] in *;
      [|exists 0%nat; cbn; lia].
    destruct (comprehension _ logs) as [[|first others]|e]; cbn [snd];
      [|exists 0%nat; cbn; lia..].
    destruct (Z.ltb_spec i timeout); [|lia].
    destruct (IH (World (gevent_sleep wait (chain w1)) (trace w1 ++ [Sleep wait])))
      as (sleeps & Hp' & Hs' & Hle).
    exists (S sleeps). rewrite Hp', Hs'. cbn [trace length].
    rewrite !count_app, !count_cons, !count_nil, Hp, Hs. cbn. lia.
Qed.

(** X1.  For a wait interval w > 0 and a timeout T >= 0, every call of
    [get_event_blocking], whatever the node answers and however the call
    ends (an entry, [None] or an exception), has made exactly one poll
    more than it has slept: at least one poll, at most ceil(T/w) + 1, and
    the time slept in total is below T + w. *)
Theorem X1_polls_one_more_than_sleeps self event_name from_block to_block filters
    condition (wait timeout : option Z) w :
  let T := default DEFAULT_TIMEOUT timeout in
  let wt := default DEFAULT_RETRY_INTERVAL wait in
  0 < wt -> 0 <= T ->
  let w' := snd (get_event_blocking self event_name from_block to_block filters
                   condition wait timeout w) in
  exists sleeps,
    count is_poll (trace w') = (count is_poll (trace w) + S sleeps)%nat
    /\ count is_sleep (trace w') = (count is_sleep (trace w) + sleeps)%nat
    /\ Z.of_nat (S sleeps) <= (T + wt - 1) / wt + 1
    /\ Z.of_nat sleeps * wt < T + wt.
Proof.
  intros T wt Hwt HT w'. subst w'.
  unfold get_event_blocking, bindM at 1, lift at 1. fold T wt.
  destruct (py_range_shape T wt Hwt HT) as (-> & Hbefore & Hfinal & Hlen).
  destruct (poll_loop_polls_sleeps self event_name (default (PInt 0) from_block)
              (default (PStr "pending") to_block) filters condition wt T _ _
              Hbefore Hfinal w) as (sleeps & Hp & Hs & Hle).
  exists sleeps. split; [exact Hp|]. split; [exact Hs|].
  rewrite Hlen in Hle.
  assert (0 <= (T + wt - 1) / wt) as Hc by (apply Z.div_pos; lia).
  pose proof (Z.mul_div_le (T + wt - 1) wt Hwt) as Hmul.
  split; [lia|].
  assert (Z.of_nat sleeps * wt <= (T + wt - 1) / wt * wt)
    by (apply Z.mul_le_mono_nonneg_r; lia).
  lia.
Qed.

(** A run that ends otherwise than by running out of iterations ends the
    same way under a larger timeout and with more iterations to go. *)
Lemma poll_loop_larger_timeout self event_name from_block to_block filters condition
    wait timeout timeout' before final more :
  timeout <= timeout' ->
  Forall (fun i => i < timeout) before ->
  forall w outcome w',
    poll_loop self event_name from_block to_block filters condition wait timeout
      (before ++ [final]) w = (outcome, w') ->
    outcome <> Ok None ->
    poll_loop self event_name from_block to_block filters condition wait timeout'
      (before ++ final :: more) w = (outcome, w').
Proof.
  intros Hle Hbefore. induction Hbefore as [|i before Hi _ IH]; intros w outcome w'.
  - cbn [app]. rewrite !poll_loop_cons.
    destruct (get_logs _ _ _ _ _ w) as [[logs|e] w1]; [|done].
    destruct (comprehension _ logs) as [[|first others]|e]; [|done..].
    cbn [poll_loop]. unfold ret. by intros [= <- _].
  - cbn [app]. rewrite !poll_loop_cons.
    destruct (get_logs _ _ _ _ _ w) as [[logs|e] w1]; [|done].
    destruct (comprehension _ logs) as [[|first others]|e]; [|done..].
    destruct (Z.ltb_spec i timeout); [|lia].
    destruct (Z.ltb_spec i timeout'); [|lia].
    apply IH.
Qed.

(** X2.  Raising the timeout never loses a result: when
    [get_event_blocking] with timeout T >= 0 and interval w > 0 returns an
    entry, or raises, then with any timeout T' >= T, in the same world, it
    ends the same way and leaves the same world. *)
Theorem X2_larger_timeout_same_result self event_name from_block to_block filters
    condition (wait timeout timeout' : Z) w outcome w' :
  0 < wait -> 0 <= timeout -> timeout <= timeout' ->
  get_event_blocking self event_name from_block to_block filters condition
    (Some wait) (Some timeout) w = (outcome, w') ->
  outcome <> Ok None ->
  get_event_blocking self event_name from_block to_block filters condition
    (Some wait) (Some timeout') w = (outcome, w').
Proof.
  intros Hwait Htimeout Hle.
  unfold get_event_blocking, bindM at 1, lift at 1.
  unfold bindM at 1, lift at 1.
  change (default DEFAULT_TIMEOUT (Some timeout)) with timeout.
  change (default DEFAULT_TIMEOUT (Some timeout')) with timeout'.
  change (default DEFAULT_RETRY_INTERVAL (Some wait)) with wait.
  destruct (py_range_shape timeout wait Hwait Htimeout) as (-> & Hbefore & _ & _).
  rewrite py_range_positive by lia.
  set (c := Z.to_nat ((timeout + wait - 1) / wait)) in *.
  assert (0 <= (timeout + wait - 1) / wait) as Hc by (apply Z.div_pos; lia).
  assert ((timeout + wait - 1) / wait <= (timeout' + wait - 1) / wait) as Hmono
    by (apply Z.div_le_mono; lia).
  replace (timeout' + wait + wait - 1) with ((timeout' + wait - 1) + 1 * wait) by lia.
  rewrite Z.div_add by lia.
  set (c' := Z.to_nat ((timeout' + wait - 1) / wait)).
  replace (Z.to_nat ((timeout' + wait - 1) / wait + 1)) with (c + S (c' - c))%nat
    by (subst c c'; lia).
  rewrite seq_app, map_app. cbn [seq map Nat.add].
  apply poll_loop_larger_timeout; done.
Qed.

(** What a call of [get_logs] adds to the trace: its ghost entry and at
    most one request, which is an [eth_getLogs] request. *)
Lemma get_logs_effects self event_name from_block to_block filters w :
  exists requests,
    trace (snd (get_logs self event_name (Some from_block) (Some to_block) filters w))
      = trace w ++ Enter_get_logs event_name from_block to_block filters :: requests
    /\ Forall (fun e => exists params, e = Rpc_request "eth_getLogs" params) requests.
Proof.
  unfold get_logs, bindM, emit, lift, perform. cbn.
  destruct (resolve_event _ _) as [event_abi|]; cbn; [|by exists []].
  destruct (assert_nonempty _); cbn; [|by exists []].
  destruct (construct_event_filter_params _ _ _) as [constructed|]; cbn; [|by exists []].
  destruct (input_filter_params_formatter _) as [formatted|]; cbn; [|by exists []].
  assert (Forall (fun e : effect rpc_params => exists params, e = Rpc_request "eth_getLogs" params)
            [Rpc_request "eth_getLogs" [formatted]]) as Hone
    by (constructor; [by eexists|constructor]).
  destruct (request_blocking _ _ _) as [[response0|e] n]; cbn.
  - destruct (log_array_formatter response0); cbn;
      eexists; (split; [by rewrite <- app_assoc|exact Hone]).
  - eexists; (split; [by rewrite <- app_assoc|exact Hone]).
Qed.

Lemma poll_loop_effects self event_name from_block to_block filters condition
    wait timeout iterations w :
  exists added,
    trace (snd (poll_loop self event_name from_block to_block filters condition
                  wait timeout iterations w)) = trace w ++ added
    /\ Forall (fun e =>
                 e = Enter_get_logs event_name from_block to_block filters
                 \/ (exists params, e = Rpc_request "eth_getLogs" params)
                 \/ e = Sleep wait) added.
Proof.
  revert w. induction iterations as [|i rest IH]; intros w.
  { exists []. by rewrite app_nil_r. }
  rewrite poll_loop_cons.
  destruct (get_logs_effects self event_name from_block to_block filters w)
    as (requests & Ht & Hreq).
  assert (Forall (fun e =>
                    e = Enter_get_logs event_name from_block to_block filters
                    \/ (exists params, e = Rpc_request "eth_getLogs" params)
                    \/ e = Sleep wait)
            (Enter_get_logs event_name from_block to_block filters :: requests)) as Hone.
  { constructor; [by left|]. eapply Forall_impl; [exact Hreq|]. intros e He. by right; left. }
  destruct (get_logs _ _ _ _ _ w) as [[logs|e] w1]; cbn [snd] in Ht; [|by eauto].
  destruct (comprehension _ logs) as [[|first others]|e]; [|by eauto..].
  match goal with |- context [poll_loop _ _ _ _ _ _ _ _ rest ?w2] =>
    destruct (IH w2) as (added & -> & Hadded) end.
  destruct (i <? timeout); cbn [trace]; rewrite Ht.
  - exists ((Enter_get_logs event_name from_block to_block filters :: requests)
            ++ Sleep wait :: added).
    split; [by rewrite <- !app_assoc|].
    apply Forall_app; split; [done|]. constructor; [by right; right|done].
  - exists ((Enter_get_logs event_name from_block to_block filters :: requests) ++ added).
    split; [by rewrite <- !app_assoc|]. by apply Forall_app.
Qed.

(** X3.  Whatever its arguments and however it ends, a call of
    [get_event_blocking] does nothing to the outside but call [get_logs]
    with its own event name, block range and filters, send [eth_getLogs]
    requests, and sleep for its own wait interval: it never fetches a
    transaction count, never reads the channel info, never sends any other
    request. *)
Theorem X3_waiter_effects self event_name from_block to_block filters condition
    wait timeout w :
  exists added,
    trace (snd (get_event_blocking self event_name from_block to_block filters condition
                  wait timeout w)) = trace w ++ added
    /\ Forall (fun e =>
                 e = Enter_get_logs event_name (default (PInt 0) from_block)
                       (default (PStr "pending") to_block) filters
                 \/ (exists params, e = Rpc_request "eth_getLogs" params)
                 \/ e = Sleep (default DEFAULT_RETRY_INTERVAL wait)) added.
Proof.
  unfold get_event_blocking, bindM at 1, lift at 1.
  destruct (py_range _ _ _) as [iterations|e].
  - apply poll_loop_effects.
  - exists []. by rewrite app_nil_r.
Qed.

(** A comprehension raises what its condition raises on the first entry
    where it raises, whatever the entries before it gave. *)
Lemma comprehension_raises {A} (p : A -> result bool) (before after : list A) bad e :
  Forall (fun x => exists b, p x = Ok b) before ->
  p bad = Raise e ->
  comprehension p (before ++ bad :: after) = Raise e.
Proof.
  intros Hbefore Hbad. induction Hbefore as [|x before [b Hx] _ IH]; cbn.
  - by rewrite Hbad.
  - by rewrite Hx, IH.
Qed.

(** X4.  Errors end the wait at once, in any poll cycle (any iteration
    value, any remaining iterations, any world): an exception of
    [get_logs] is raised by the waiter in the world the poll left, without
    retry or sleep; and so is an exception the condition raises on any
    polled entry, even when an earlier entry of the same poll passed the
    condition.  The same holds for [get_event_blocking] in its first
    cycle. *)
Theorem X4_errors_end_the_wait self event_name from_block to_block filters condition
    wait timeout i rest w :
  (forall e w1,
     get_logs self event_name (Some from_block) (Some to_block) filters w = (Raise e, w1) ->
     poll_loop self event_name from_block to_block filters condition wait timeout
       (i :: rest) w = (Raise e, w1)
     /\ (0 < wait -> 0 <= timeout ->
         get_event_blocking self event_name (Some from_block) (Some to_block) filters
           condition (Some wait) (Some timeout) w = (Raise e, w1)))
  /\ (forall logs w1 before bad after e,
        get_logs self event_name (Some from_block) (Some to_block) filters w = (Ok logs, w1) ->
        logs = before ++ bad :: after ->
        Forall (fun event => exists b, passes condition event = Ok b) before ->
        passes condition bad = Raise e ->
        poll_loop self event_name from_block to_block filters condition wait timeout
          (i :: rest) w = (Raise e, w1)
        /\ (0 < wait -> 0 <= timeout ->
            get_event_blocking self event_name (Some from_block) (Some to_block) filters
              condition (Some wait) (Some timeout) w = (Raise e, w1))).
Proof.
  assert (forall outcome : result (option log_entry) * world node rpc_params,
            (forall j more,
               poll_loop self event_name from_block to_block filters condition wait timeout
                 (j :: more) w = outcome) ->
            0 < wait -> 0 <= timeout ->
            get_event_blocking self event_name (Some from_block) (Some to_block) filters
              condition (Some wait) (Some timeout) w = outcome) as Hfirst.
  { intros outcome Hloop Hwait Htimeout.
    unfold get_event_blocking, bindM at 1, lift at 1.
    change (default DEFAULT_TIMEOUT (Some timeout)) with timeout.
    change (default DEFAULT_RETRY_INTERVAL (Some wait)) with wait.
    change (default (PInt 0) (Some from_block)) with from_block.
    change (default (PStr "pending") (Some to_block)) with to_block.
    destruct (py_range_first timeout wait) as (more & -> & _); [done..|]. apply Hloop. }
  split.
  - intros e w1 Hlogs.
    assert (forall j more,
              poll_loop self event_name from_block to_block filters condition wait timeout
                (j :: more) w = (Raise e, w1)) as Hloop
      by (intros j more; by rewrite poll_loop_cons, Hlogs).
    split; [apply Hloop|by apply Hfirst].
  - intros logs w1 before bad after e Hlogs -> Hbefore Hbad.
    assert (forall j more,
              poll_loop self event_name from_block to_block filters condition wait timeout
                (j :: more) w = (Raise e, w1)) as Hloop.
    { intros j more.
      by rewrite poll_loop_cons, Hlogs, (comprehension_raises _ _ _ _ e Hbefore Hbad). }
    split; [apply Hloop|by apply Hfirst].
Qed.

(** X5.  When [get_logs] returns, it returns one entry for each raw log of
    the node's answer, in the same order; each entry has an [args] key,
    and under every other key it holds what the raw log held (a raw
    [args] field is replaced). *)
Theorem X5_entries_keep_raw_fields self event_name from_block to_block filters w logs :
  fst (get_logs self event_name from_block to_block filters w) = Ok logs ->
  exists params response0 raw_logs,
    fst (request_blocking "eth_getLogs" params (chain w)) = Ok response0
    /\ log_array_formatter response0 = Ok raw_logs
    /\ length logs = length raw_logs
    /\ forall (k : nat) (raw log : log_entry),
         raw_logs !! k = Some raw -> logs !! k = Some log ->
         is_Some (log !! "args")
         /\ forall key, key <> "args" -> log !! key = raw !! key.
Proof.
  rewrite get_logs_result.
  destruct (resolve_event _ _) as [event_abi|]; cbn; [|done].
  destruct (assert_nonempty _); cbn; [|done].
  destruct (construct_event_filter_params _ _ _) as [constructed|]; cbn; [|done].
  destruct (input_filter_params_formatter _) as [formatted|]; cbn; [|done].
  destruct (fst (request_blocking _ _ _)) as [response0|] eqn:Hresp; cbn; [|done].
  destruct (log_array_formatter _) as [raw_logs|] eqn:Hraw; cbn; [|done].
  intros Hattach%for_each_Forall2.
  exists [formatted], response0, raw_logs. split; [done|]. split; [done|].
  split; [symmetry; by eapply Forall2_length|].
  intros k raw log Hk Hk'.
  pose proof (Forall2_lookup_lr _ _ _ _ _ _ Hattach Hk Hk') as Hone.
  unfold attach_args, getitem in Hone.
  destruct (get_event_data event_abi raw) as [data|]; cbn in Hone; [|done].
  destruct (data !! "args") as [args|]; cbn in Hone; [|done].
  injection Hone as <-. split.
  - rewrite lookup_insert_eq. by eexists.
  - intros key Hkey. by rewrite lookup_insert_ne.
Qed.

(** X6.  [get_logs] inspects the whole ABI before anything else: an entry
    without a ['type'] raises KeyError('type'), and an entry of type
    ['event'] without a ['name'] raises KeyError('name'), before any
    request is sent, wherever the entry stands in the ABI and even when
    the requested event is declared before it. *)
Theorem X6_malformed_abi_entry self event_name from_block to_block filters w
    before bad after :
  abi self = before ++ bad :: after ->
  Forall (fun i => exists b, is_event_named event_name i = Ok b) before ->
  let entered :=
    World (chain w)
      (trace w ++ [Enter_get_logs event_name (default (PInt 0) from_block)
                     (default (PStr "latest") to_block) filters]) in
  (bad !! "type" = None ->
     get_logs self event_name from_block to_block filters w
     = (Raise (KeyError "type"), entered))
  /\ (forall ty,
        bad !! "type" = Some ty -> py_eq ty (PStr "event") = true ->
        bad !! "name" = None ->
        get_logs self event_name from_block to_block filters w
        = (Raise (KeyError "name"), entered)).
Proof.
  intros Habi Hbefore entered.
  assert (forall e, is_event_named event_name bad = Raise e ->
            get_logs self event_name from_block to_block filters w = (Raise e, entered))
    as Hraise.
  { intros e Hbad. unfold get_logs, bindM, emit, lift, resolve_event.
    rewrite Habi, (comprehension_raises _ _ _ _ e Hbefore Hbad). done. }
  split.
  - intros Hty. apply Hraise. unfold is_event_named, getitem. by rewrite Hty.
  - intros ty Hty Hevent Hname. apply Hraise.
    unfold is_event_named, getitem. rewrite Hty. cbn. rewrite Hevent, Hname. done.
Qed.

(** X7.  ABI entries of any other type than ['event'] are skipped without
    a look at their name: a proxy whose ABI has such entries (a
    constructor without a name, say) in front behaves in [get_logs] as the
    proxy without them. *)
Theorem X7_other_entries_skipped self self' skipped event_name from_block to_block
    filters w :
  abi self' = skipped ++ abi self ->
  address self' = address self ->
  Forall (fun i : abi_entry =>
            exists ty, i !! "type" = Some ty /\ py_eq ty (PStr "event") = false) skipped ->
  get_logs self' event_name from_block to_block filters w
  = get_logs self event_name from_block to_block filters w.
Proof.
  intros Habi Haddress Hskipped.
  assert (resolve_event (abi self') event_name = resolve_event (abi self) event_name) as Hres.
  { unfold resolve_event. rewrite Habi.
    assert (comprehension (is_event_named event_name) (skipped ++ abi self)
            = comprehension (is_event_named event_name) (abi self)) as ->; [|done].
    clear Habi. induction Hskipped as [|i skipped (ty & Hty & Hne) _ IH]; [done|].
    cbn. unfold is_event_named at 1, getitem. rewrite Hty. cbn. rewrite Hne. cbn.
    rewrite IH. by destruct (comprehension _ (abi self)). }
  unfold get_logs. by rewrite Hres, Haddress.
Qed.

(** Every entry [get_logs] returns has an [args] key. *)
Lemma get_logs_entries_have_args self event_name from_block to_block filters w logs :
  fst (get_logs self event_name from_block to_block filters w) = Ok logs ->
  Forall (fun log : log_entry => is_Some (log !! "args")) logs.
Proof.
  rewrite get_logs_result.
  destruct (resolve_event _ _) as [event_abi|]; cbn; [|done].
  destruct (assert_nonempty _); cbn; [|done].
  destruct (construct_event_filter_params _ _ _) as [constructed|]; cbn; [|done].
  destruct (input_filter_params_formatter _) as [formatted|]; cbn; [|done].
  destruct (fst (request_blocking _ _ _)) as [response0|]; cbn; [|done].
  destruct (log_array_formatter _) as [raw_logs|]; cbn; [|done].
  intros Hattach%for_each_Forall2.
  induction Hattach as [|raw log raws logs Hone _ IH]; constructor; [|exact IH].
  unfold attach_args, getitem in Hone.
  destruct (get_event_data event_abi raw) as [data|]; cbn in Hone; [|done].
  destruct (data !! "args") as [args|]; cbn in Hone; [|done].
  injection Hone as <-. rewrite lookup_insert_eq. by eexists.
Qed.

(** An entry the loop returns comes from the poll that left the final
    world. *)
Lemma poll_loop_returns_polled self event_name from_block to_block filters
    condition wait timeout iterations w event w' :
  poll_loop self event_name from_block to_block filters condition wait timeout iterations w
    = (Ok (Some event), w') ->
  exists w0 logs,
    get_logs self event_name (Some from_block) (Some to_block) filters w0 = (Ok logs, w')
    /\ event ∈ logs.
Proof.
  revert w. induction iterations as [|i rest IH]; intros w; [done|].
  rewrite poll_loop_cons.
  destruct (get_logs _ _ _ _ _ w) as [[logs|e] w1] eqn:Hlogs; [|done].
  destruct (comprehension _ logs) as [[|first others]|e] eqn:Hc; [|..|done].
  - apply IH.
  - intros [= <- <-]. exists w, logs. split; [exact Hlogs|].
    apply comprehension_kept in Hc. by inversion Hc as [|? ? [_ ?]].
Qed.

(** X8.  An entry that [get_event_blocking] returns is one of the entries
    of a poll it made, the poll that left the world the call ends in; it
    passed the condition and it has an [args] key. *)
Theorem X8_returned_entry_was_polled self event_name from_block to_block filters
    condition wait timeout w event w' :
  get_event_blocking self event_name from_block to_block filters condition wait timeout w
    = (Ok (Some event), w') ->
  passes condition event = Ok true
  /\ is_Some (event !! "args")
  /\ exists w0 logs,
       get_logs self event_name (Some (default (PInt 0) from_block))
         (Some (default (PStr "pending") to_block)) filters w0 = (Ok logs, w')
       /\ event ∈ logs.
Proof.
  intros Hrun. split; [by eapply get_event_blocking_returns_passing|].
  revert Hrun. unfold get_event_blocking, bindM at 1, lift at 1.
  destruct (py_range _ _ _) as [iterations|e]; [|done].
  intros (w0 & logs & Hlogs & Hin)%poll_loop_returns_polled.
  split; [|by exists w0, logs].
  assert (fst (get_logs self event_name (Some (default (PInt 0) from_block))
                 (Some (default (PStr "pending") to_block)) filters w0) = Ok logs)
    as Hfst by (by rewrite Hlogs).
  apply get_logs_entries_have_args in Hfst.
  rewrite List.Forall_forall in Hfst. apply Hfst. by apply list_elem_of_In.
Qed.

(** Without a condition every polled entry is kept. *)
Lemma comprehension_no_condition (logs : list log_entry) :
  comprehension (passes None) logs = Ok logs.
Proof. induction logs as [|log logs IH]; [done|]. cbn. by rewrite IH. Qed.

(** A wait without condition returns the first entry of its first
    non-empty poll; here for the first poll. *)
Lemma get_event_blocking_first_log self event_name from_block to_block filters
    (wait timeout : Z) w first others w1 :
  0 < wait -> 0 <= timeout ->
  get_logs self event_name (Some from_block) (Some to_block) filters w
    = (Ok (first :: others), w1) ->
  get_event_blocking self event_name (Some from_block) (Some to_block) filters None
    (Some wait) (Some timeout) w = (Ok (Some first), w1).
Proof.
  intros Hwait Htimeout Hlogs.
  unfold get_event_blocking, bindM at 1, lift at 1.
  change (default DEFAULT_TIMEOUT (Some timeout)) with timeout.
  change (default DEFAULT_RETRY_INTERVAL (Some wait)) with wait.
  change (default (PInt 0) (Some from_block)) with from_block.
  change (default (PStr "pending") (Some to_block)) with to_block.
  destruct (py_range_first timeout wait) as (more & -> & _); [done..|].
  by rewrite poll_loop_cons, Hlogs, comprehension_no_condition.
Qed.

(** X9.  The blocking waits for channel creation, close request and
    settlement poll the events ChannelCreated, ChannelCloseRequested and
    ChannelSettled, with the sender and receiver as filters and, for the
    last two, the opening block; they have no condition, so with a wait
    interval w > 0 and a timeout T >= 0 they return the first entry of the
    first poll when that poll returns any entry, without sleeping. *)
Theorem X9_channel_waits_first_log self sender receiver opening_block
    from_block to_block wait timeout w :
  let fb := default (PInt 0) from_block in
  let tb := default (PStr "pending") to_block in
  let wt := default DEFAULT_RETRY_INTERVAL wait in
  let T := default DEFAULT_TIMEOUT timeout in
  let pair : gmap string pyval := {[ "_sender" := sender; "_receiver" := receiver ]} in
  let triple : gmap string pyval :=
    {[ "_sender" := sender; "_receiver" := receiver;
       "_open_block_number" := opening_block ]} in
  0 < wt -> 0 <= T ->
  (forall first others w1,
     get_logs self "ChannelCreated" (Some fb) (Some tb) (Some pair) w
       = (Ok (first :: others), w1) ->
     get_channel_created_event_blocking self sender receiver from_block to_block
       wait timeout w = (Ok (Some first), w1))
  /\ (forall first others w1,
        get_logs self "ChannelCloseRequested" (Some fb) (Some tb) (Some triple) w
          = (Ok (first :: others), w1) ->
        get_channel_close_requested_event_blocking self sender receiver opening_block
          from_block to_block wait timeout w = (Ok (Some first), w1))
  /\ (forall first others w1,
        get_logs self "ChannelSettled" (Some fb) (Some tb) (Some triple) w
          = (Ok (first :: others), w1) ->
        get_channel_settle_event_blocking self sender receiver opening_block
          from_block to_block wait timeout w = (Ok (Some first), w1))
  /\ pair !! "_sender" = Some sender
  /\ pair !! "_receiver" = Some receiver
  /\ triple !! "_sender" = Some sender
  /\ triple !! "_receiver" = Some receiver
  /\ triple !! "_open_block_number" = Some opening_block.
Proof.
  intros fb tb wt T pair triple Hwt HT.
  split; [|split; [|split]].
  - intros first others w1 Hlogs.
    by apply (get_event_blocking_first_log self "ChannelCreated" fb tb (Some pair) wt T w
                first others w1).
  - intros first others w1 Hlogs.
    by apply (get_event_blocking_first_log self "ChannelCloseRequested" fb tb (Some triple)
                wt T w first others w1).
  - intros first others w1 Hlogs.
    by apply (get_event_blocking_first_log self "ChannelSettled" fb tb (Some triple)
                wt T w first others w1).
  - subst pair triple. by simplify_map_eq.
Qed.

(** X10.  Degenerate intervals.  A wait interval of 0 makes
    [get_event_blocking] raise ValueError before anything is done.  When
    the interval is positive and timeout + interval <= 0, or the interval
    is negative and timeout + interval >= 0 (timeout 20 and interval -3,
    say), the loop has no iteration: the call returns [None] at once,
    without a single poll. *)
Theorem X10_degenerate_intervals self event_name from_block to_block filters condition
    (wait timeout : option Z) w :
  let T := default DEFAULT_TIMEOUT timeout in
  let wt := default DEFAULT_RETRY_INTERVAL wait in
  (wt = 0 ->
     get_event_blocking self event_name from_block to_block filters condition
       wait timeout w = (Raise ValueError, w))
  /\ ((0 < wt /\ T + wt <= 0) \/ (wt < 0 /\ 0 <= T + wt) ->
      get_event_blocking self event_name from_block to_block filters condition
        wait timeout w = (Ok None, w)).
Proof.
  intros T wt. unfold get_event_blocking, bindM, lift. fold T wt. split.
  - intros ->. reflexivity.
  - intros Hcase. unfold py_range, range_length.
    destruct (Z.eqb_spec wt 0); [lia|].
    destruct (Z.ltb_spec 0 wt).
    + destruct (Z.ltb_spec 0 (T + wt)); [lia|]. reflexivity.
    + destruct (Z.ltb_spec (T + wt) 0); [lia|]. reflexivity.
Qed.

(* --------------------------------------------------------------------- *)
(** *** More on building a transaction *)
(* --------------------------------------------------------------------- *)

(** X11.  On every path, successful or not, [create_transaction] sends
    exactly one request to the node, the fetch of the caller's transaction
    count, and leaves the node as that fetch left it: it does not
    broadcast what it signs.  An exception of the fetch is raised
    unchanged. *)
Theorem X11_one_request_on_every_path self func_name args nonce_offset w :
  let fetched := getTransactionCount (caller_address self) (chain w) in
  let run := create_transaction self func_name args nonce_offset w in
  snd run = World (snd fetched)
              (trace w ++ [Rpc_getTransactionCount (caller_address self)])
  /\ (forall e, fst fetched = Raise e -> fst run = Raise e).
Proof.
  intros fetched run. subst run.
  unfold create_transaction, signed_transaction, bindM, perform, lift, ret. fold fetched.
  destruct fetched as [[count|e] n]; cbn -[Z.add].
  - split; [|done].
    destruct (prepare_transaction _ _ _ _) as [prepared|]; cbn -[Z.add]; [|done].
    destruct (getitem prepared "data") as [data|]; cbn -[Z.add]; [|done].
    destruct (decode_hex data) as [bytes|]; cbn -[Z.add]; [|done].
    by destruct (Transaction_sign _ _).
  - split; [done|]. by intros ? [= <-].
Qed.

(** X12.  A nonce offset pre-computes the transaction of a later call:
    [create_transaction] with [nonce_offset = k], when the account's count
    is [count], returns what a call without offset returns once the count
    has reached [count + k]. *)
Theorem X12_offset_precomputes self func_name args (k : Z) w w_later count :
  fst (getTransactionCount (caller_address self) (chain w)) = Ok count ->
  fst (getTransactionCount (caller_address self) (chain w_later)) = Ok (count + k) ->
  fst (create_transaction self func_name args (Some k) w)
  = fst (create_transaction self func_name args None w_later).
Proof.
  intros Hnow Hlater.
  unfold create_transaction, signed_transaction, bindM, perform, lift, ret.
  destruct (getTransactionCount _ (chain w)) as [r1 n1].
  destruct (getTransactionCount _ (chain w_later)) as [r2 n2].
  cbn [fst] in Hnow, Hlater. subst r1 r2.
  cbn -[Z.add]. rewrite Z.add_0_r.
  destruct (prepare_transaction _ _ _ _) as [prepared|]; cbn -[Z.add]; [|done].
  destruct (getitem prepared "data") as [data|]; cbn -[Z.add]; [|done].
  destruct (decode_hex data) as [bytes|]; cbn -[Z.add]; [|done].
  by destruct (Transaction_sign _ _).
Qed.

End Waiter.

(* ===================================================================== *)
(** ** The further properties on the concrete nodes *)
(* ===================================================================== *)

Lemma X1_polls_one_more_than_sleeps_witness :
  0 < 1 /\ 0 <= 5
  /\ (let w' := snd (get_event_blocking Toy.proxy "ChannelCreated" None None None None
                       (Some 1) (Some 5) Toy.late) in
      exists sleeps,
        count is_poll (trace w') = (count is_poll (trace Toy.late) + S sleeps)%nat
        /\ count is_sleep (trace w') = (count is_sleep (trace Toy.late) + sleeps)%nat
        /\ Z.of_nat (S sleeps) <= (5 + 1 - 1) / 1 + 1
        /\ Z.of_nat sleeps * 1 < 5 + 1).
Proof.
  split; [reflexivity|]. split; [discriminate|].
  apply (X1_polls_one_more_than_sleeps Toy.proxy "ChannelCreated" None None None None
           (Some 1) (Some 5) Toy.late); [reflexivity|discriminate].
Defined.

Lemma X2_larger_timeout_same_result_witness :
  let run := get_event_blocking Toy.proxy "ChannelCreated" None None None None
               (Some 1) (Some 5) Toy.late in
  fst run <> Ok None
  /\ get_event_blocking Toy.proxy "ChannelCreated" None None None None
       (Some 1) (Some 9) Toy.late = (fst run, snd run).
Proof.
  intros run.
  assert (fst run <> Ok None) as Hfound by (vm_compute; discriminate).
  split; [exact Hfound|].
  apply (X2_larger_timeout_same_result Toy.proxy "ChannelCreated" None None None None
           1 5 9 Toy.late (fst run) (snd run));
    [reflexivity|discriminate|discriminate|apply surjective_pairing|exact Hfound].
Defined.

Lemma X4_errors_end_the_wait_witness :
  get_event_blocking Toy.proxy "ChannelToppedUp" (Some (PInt 0)) (Some (PStr "pending"))
    None None (Some 3) (Some 20) Toy.unreachable
  = (Raise (ExternalError "connection refused"),
     snd (get_logs Toy.proxy "ChannelToppedUp" (Some (PInt 0)) (Some (PStr "pending"))
            None Toy.unreachable))
  /\ (let condition := Some (topped_up_condition (PInt 100) (PInt 50)) in
      let polled := get_logs Toy.proxy "ChannelToppedUp" (Some (PInt 0))
                      (Some (PStr "pending")) None Toy.odd in
      let logs := match fst polled with Ok found => found | Raise _ => [] end in
      passes condition (nth 0 logs ∅) = Ok true
      /\ get_event_blocking Toy.proxy "ChannelToppedUp" (Some (PInt 0))
           (Some (PStr "pending")) None condition (Some 3) (Some 20) Toy.odd
         = (Raise (KeyError "_deposit"), snd polled)).
Proof.
  split.
  - destruct (X4_errors_end_the_wait Toy.proxy "ChannelToppedUp" (PInt 0) (PStr "pending")
                None None 3 20 0 [] Toy.unreachable) as [Hpoll _].
    apply (Hpoll (ExternalError "connection refused")); [|reflexivity|discriminate].
    vm_compute. reflexivity.
  - intros condition polled logs. split; [vm_compute; reflexivity|].
    destruct (X4_errors_end_the_wait Toy.proxy "ChannelToppedUp" (PInt 0) (PStr "pending")
                None condition 3 20 0 [] Toy.odd) as [_ Hcondition].
    apply (Hcondition logs (snd polled) [nth 0 logs ∅] (nth 1 logs ∅) []
             (KeyError "_deposit")).
    + vm_compute. reflexivity.
    + vm_compute. reflexivity.
    + apply total_by_check. vm_compute. reflexivity.
    + vm_compute. reflexivity.
    + reflexivity.
    + discriminate.
Defined.

Lemma X5_entries_keep_raw_fields_witness :
  let result1 := fst (get_logs Toy.proxy "ChannelToppedUp" None None None Toy.busy) in
  let logs := match result1 with Ok found => found | Raise _ => [] end in
  result1 = Ok logs
  /\ exists params response0 raw_logs,
       fst (request_blocking "eth_getLogs" params (chain Toy.busy)) = Ok response0
       /\ log_array_formatter response0 = Ok raw_logs
       /\ length logs = length raw_logs
       /\ forall (k : nat) (raw log : log_entry),
            raw_logs !! k = Some raw -> logs !! k = Some log ->
            is_Some (log !! "args")
            /\ forall key, key <> "args" -> log !! key = raw !! key.
Proof.
  intros result1 logs.
  assert (result1 = Ok logs) as Hr by (vm_compute; reflexivity).
  split; [exact Hr|].
  exact (X5_entries_keep_raw_fields Toy.proxy "ChannelToppedUp" None None None Toy.busy
           logs Hr).
Defined.

Lemma X6_malformed_abi_entry_witness :
  is_event_named "ChannelCreated" (Toy.event_entry "ChannelCreated") = Ok true
  /\ get_logs Toy.sloppy_proxy "ChannelCreated" None None None Toy.quiet
     = (Raise (KeyError "type"),
        World (chain Toy.quiet)
          (trace Toy.quiet
           ++ [Enter_get_logs "ChannelCreated" (PInt 0) (PStr "latest") None]))
  /\ get_logs (ChannelContractProxy_init "cafe" "0xC0"
                 (Toy.channel_abi ++ [ {[ "type" := PStr "event" ]} ]) 20 130000)
       "ChannelCreated" None None None Toy.quiet
     = (Raise (KeyError "name"),
        World (chain Toy.quiet)
          (trace Toy.quiet
           ++ [Enter_get_logs "ChannelCreated" (PInt 0) (PStr "latest") None])).
Proof.
  split; [vm_compute; reflexivity|]. split.
  - apply (X6_malformed_abi_entry Toy.sloppy_proxy "ChannelCreated" None None None
             Toy.quiet Toy.channel_abi {[ "name" := PStr "orphan" ]} []).
    + reflexivity.
    + apply total_by_check. vm_compute. reflexivity.
    + vm_compute. reflexivity.
  - apply (X6_malformed_abi_entry
             (ChannelContractProxy_init "cafe" "0xC0"
                (Toy.channel_abi ++ [ {[ "type" := PStr "event" ]} ]) 20 130000)
             "ChannelCreated" None None None
             Toy.quiet Toy.channel_abi {[ "type" := PStr "event" ]} [])
      with (ty := PStr "event").
    + reflexivity.
    + apply total_by_check. vm_compute. reflexivity.
    + vm_compute. reflexivity.
    + reflexivity.
    + vm_compute. reflexivity.
Defined.

Lemma X7_other_entries_skipped_witness :
  Toy.constructor_entry !! "name" = None
  /\ get_logs Toy.deployed_proxy "ChannelToppedUp" None None None Toy.busy
     = get_logs Toy.proxy "ChannelToppedUp" None None None Toy.busy.
Proof.
  split; [vm_compute; reflexivity|].
  apply (X7_other_entries_skipped Toy.proxy Toy.deployed_proxy [Toy.constructor_entry]).
  - reflexivity.
  - reflexivity.
  - apply List.Forall_cons; [|apply List.Forall_nil].
    exists (PStr "constructor"). split; vm_compute; reflexivity.
Defined.

Lemma X8_returned_entry_was_polled_witness :
  let run := get_event_blocking Toy.proxy "ChannelCreated" None None None None
               (Some 1) (Some 5) Toy.late in
  let event := match fst run with Ok (Some found) => found | _ => ∅ end in
  run = (Ok (Some event), snd run)
  /\ passes None event = Ok true
  /\ is_Some (event !! "args")
  /\ exists w0 logs,
       get_logs Toy.proxy "ChannelCreated" (Some (PInt 0)) (Some (PStr "pending")) None w0
       = (Ok logs, snd run)
       /\ event ∈ logs.
Proof.
  intros run event.
  assert (run = (Ok (Some event), snd run)) as Hrun by (vm_compute; reflexivity).
  split; [exact Hrun|].
  exact (X8_returned_entry_was_polled Toy.proxy "ChannelCreated" None None None None
           (Some 1) (Some 5) Toy.late event (snd run) Hrun).
Defined.

Lemma X9_channel_waits_first_log_witness :
  let pair : gmap string pyval := {[ "_sender" := PStr "0xA"; "_receiver" := PStr "0xB" ]} in
  let polled := get_logs Toy.proxy "ChannelCreated" (Some (PInt 0)) (Some (PStr "pending"))
                  (Some pair) Toy.opened in
  let logs := match fst polled with Ok found => found | Raise _ => [] end in
  polled = (Ok (nth 0 logs ∅ :: []), snd polled)
  /\ get_channel_created_event_blocking Toy.proxy (PStr "0xA") (PStr "0xB")
       None None None None Toy.opened = (Ok (Some (nth 0 logs ∅)), snd polled).
Proof.
  intros pair polled logs.
  assert (polled = (Ok (nth 0 logs ∅ :: []), snd polled)) as Hp by (vm_compute; reflexivity).
  split; [exact Hp|].
  destruct (X9_channel_waits_first_log Toy.proxy (PStr "0xA") (PStr "0xB") (PInt 10)
              None None None None Toy.opened) as [Hcreated _];
    [reflexivity|discriminate|].
  exact (Hcreated (nth 0 logs ∅) [] (snd polled) Hp).
Defined.

Lemma X10_degenerate_intervals_witness :
  get_event_blocking Toy.proxy "ChannelToppedUp" None None None None (Some 0) None Toy.busy
  = (Raise ValueError, Toy.busy)
  /\ get_event_blocking Toy.proxy "ChannelToppedUp" None None None None (Some (-3)) None
       Toy.busy = (Ok None, Toy.busy)
  /\ get_event_blocking Toy.proxy "ChannelToppedUp" None None None None None (Some (-3))
       Toy.busy = (Ok None, Toy.busy).
Proof.
  split; [|split].
  - apply (X10_degenerate_intervals Toy.proxy "ChannelToppedUp" None None None None
             (Some 0) None Toy.busy). reflexivity.
  - apply (X10_degenerate_intervals Toy.proxy "ChannelToppedUp" None None None None
             (Some (-3)) None Toy.busy). right. split; [reflexivity|discriminate].
  - apply (X10_degenerate_intervals Toy.proxy "ChannelToppedUp" None None None None
             None (Some (-3)) Toy.busy). left. split; [reflexivity|discriminate].
Defined.

Lemma X11_one_request_on_every_path_witness :
  fst (create_transaction Toy.proxy "createChannel" [PStr "0xB"; PInt 100] None
         Toy.unreachable) = Raise (ExternalError "connection refused")
  /\ snd (create_transaction Toy.proxy "createChannel" [PStr "0xB"; PInt 100] None
            Toy.unreachable)
     = World tt [Rpc_getTransactionCount (caller_address Toy.proxy)]
  /\ snd (create_transaction Toy.proxy "createChannel" [PStr "0xB"; PInt 100] None
            Toy.quiet)
     = World (chain Toy.quiet) [Rpc_getTransactionCount (caller_address Toy.proxy)].
Proof.
  split; [|split].
  - apply (X11_one_request_on_every_path Toy.proxy "createChannel" [PStr "0xB"; PInt 100]
             None Toy.unreachable). reflexivity.
  - exact (proj1 (X11_one_request_on_every_path Toy.proxy "createChannel"
                    [PStr "0xB"; PInt 100] None Toy.unreachable)).
  - exact (proj1 (X11_one_request_on_every_path Toy.proxy "createChannel"
                    [PStr "0xB"; PInt 100] None Toy.quiet)).
Defined.

Lemma X12_offset_precomputes_witness :
  fst (getTransactionCount (caller_address Toy.proxy) (chain Toy.quiet)) = Ok 7
  /\ fst (getTransactionCount (caller_address Toy.proxy) (chain Toy.quiet_later))
     = Ok (7 + 3)
  /\ fst (create_transaction Toy.proxy "createChannel" [PStr "0xB"; PInt 100] (Some 3)
            Toy.quiet)
     = fst (create_transaction Toy.proxy "createChannel" [PStr "0xB"; PInt 100] None
              Toy.quiet_later).
Proof.
  split; [reflexivity|]. split; [reflexivity|].
  apply (X12_offset_precomputes Toy.proxy "createChannel" [PStr "0xB"; PInt 100] 3
           Toy.quiet Toy.quiet_later 7); reflexivity.
Defined.
